(** * codebase-to-jsonl: the dataset generator of [script.py]

    A shallow embedding of [ProjectDataGenerator] and of the library
    functions it calls ([str.splitlines], [str.split], [json.dumps],
    [random.sample], [os.walk]), followed by the properties of the
    specification that were checked against it. *)

From Stdlib Require Import String Ascii NArith ZArith QArith Qround Lia.
From stdpp Require Import base list.

Set Warnings "-register-all".

Local Open Scope N_scope.
Local Open Scope list_scope.

(** ** Text

    A Python [str] is a sequence of Unicode code points. *)

Abbreviation char := N (only parsing).
Abbreviation str := (list N) (only parsing).

(** A literal of the source, written as an ASCII string. *)
Definition lit (s : string) : str :=
  map N_of_ascii (list_ascii_of_string s).

Definition dquote : char := 34.
Definition backslash : char := 92.
Definition LF : char := 10.
Definition CR : char := 13.

Definition str_eqb (a b : str) : bool := bool_decide (a = b).

(** [s.endswith(suffix)] *)
Definition endswith (s suffix : str) : bool :=
  str_eqb (drop (length s - length suffix)%nat s) suffix
  && bool_decide (length suffix <= length s)%nat.

(** The line boundaries of [str.splitlines]. *)
Definition is_linebreak (c : char) : bool :=
  (c =? 10) || (c =? 13) || (c =? 11) || (c =? 12) || (c =? 28)
  || (c =? 29) || (c =? 30) || (c =? 133) || (c =? 8232) || (c =? 8233).

(** [s.splitlines()]: the lines of [s] without their terminators; a
    carriage return followed by a line feed is one terminator, and a
    last line is reported only when it is not empty. *)
Fixpoint splitlines (s : str) : list str :=
  match s with
  | [] => []
  | c :: r =>
      if is_linebreak c then
        if c =? CR then
          match r with
          | c' :: r' => if c' =? LF then [] :: splitlines r'
                        else [] :: splitlines r
          | [] => [[]]
          end
        else [] :: splitlines r
      else
        match splitlines r with
        | [] => [[c]]
        | l :: ls => (c :: l) :: ls
        end
  end.

(** The characters [str.split()] treats as white space. *)
Definition is_space (c : char) : bool :=
  ((9 <=? c) && (c <=? 13)) || ((28 <=? c) && (c <=? 32))
  || (c =? 133) || (c =? 160) || (c =? 5760)
  || ((8192 <=? c) && (c <=? 8202))
  || (c =? 8232) || (c =? 8233) || (c =? 8239) || (c =? 8287)
  || (c =? 12288).

(** [s.split()] with the word read so far in [cur]. *)
Fixpoint split_from (cur : str) (s : str) : list str :=
  match s with
  | [] => match cur with [] => [] | _ => [cur] end
  | c :: r =>
      if is_space c then
        match cur with
        | [] => split_from [] r
        | _ => cur :: split_from [] r
        end
      else split_from (cur ++ [c]) r
  end.

Definition str_split (s : str) : list str := split_from [] s.

(** [sep.join(parts)] *)
Fixpoint str_join (sep : str) (parts : list str) : str :=
  match parts with
  | [] => []
  | p :: ps =>
      match ps with
      | [] => p
      | _ => p ++ sep ++ str_join sep ps
      end
  end.

(** [s.replace(old, new)] for a one-character [old]. *)
Definition str_replace (old : char) (new : str) (s : str) : str :=
  flat_map (fun c => if c =? old then new else [c]) s.

(** ** JSON values and [json.dumps]

    The values the program serialises are strings, lists and
    dictionaries with string keys. *)

Inductive pyobj :=
| PyStr (s : str)
| PyList (items : list pyobj)
| PyDict (items : list (str * pyobj)).

Definition hexdigit (d : N) : char :=
  if d <? 10 then 48 + d else 87 + d.

(** ['{0:04x}'.format(n)] for [n] below [0x10000]. *)
Definition hex4 (n : N) : str :=
  [hexdigit (n / 4096 mod 16); hexdigit (n / 256 mod 16);
   hexdigit (n / 16 mod 16); hexdigit (n mod 16)].

Definition u_escape (n : N) : str := backslash :: 117 :: hex4 n.

(** The replacement [encode_basestring_ascii] makes for one character:
    the short escapes, printable ASCII as it is, and a [\uXXXX] escape
    (a surrogate pair above the basic plane) for everything else. *)
Definition escape_char (c : char) : str :=
  if c =? dquote then [backslash; dquote]
  else if c =? backslash then [backslash; backslash]
  else if c =? 10 then [backslash; 110]
  else if c =? 13 then [backslash; 114]
  else if c =? 9 then [backslash; 116]
  else if c =? 8 then [backslash; 98]
  else if c =? 12 then [backslash; 102]
  else if (32 <=? c) && (c <=? 126) then [c]
  else if c <? 65536 then u_escape c
  else
    let n := c - 65536 in
    u_escape (N.lor 55296 (N.land (N.shiftr n 10) 1023))
    ++ u_escape (N.lor 56320 (N.land n 1023)).

Definition encode_basestring_ascii (s : str) : str :=
  dquote :: flat_map escape_char s ++ [dquote].

(** [json.dumps(v)] with the default separators [", "] and [": "]. *)
Fixpoint json_dumps (v : pyobj) : str :=
  match v with
  | PyStr s => encode_basestring_ascii s
  | PyList items =>
      lit "[" ++
      (fix elements (l : list pyobj) : str :=
         match l with
         | [] => []
         | x :: l' =>
             match l' with
             | [] => json_dumps x
             | _ => json_dumps x ++ lit ", " ++ elements l'
             end
         end) items
      ++ lit "]"
  | PyDict items =>
      lit "{" ++
      (fix members (l : list (str * pyobj)) : str :=
         match l with
         | [] => []
         | (k, x) :: l' =>
             match l' with
             | [] => encode_basestring_ascii k ++ lit ": " ++ json_dumps x
             | _ => encode_basestring_ascii k ++ lit ": " ++ json_dumps x
                    ++ lit ", " ++ members l'
             end
         end) items
      ++ lit "}"
  end.

(** ** A JSON reader, after [json.loads] *)

Inductive json :=
| JNull
| JBool (b : bool)
| JNumber (lexeme : str)
| JString (s : str)
| JArray (items : list json)
| JObject (members : list (str * json)).

Definition hexval (c : char) : option N :=
  if (48 <=? c) && (c <=? 57) then Some (c - 48)
  else if (97 <=? c) && (c <=? 102) then Some (c - 87)
  else if (65 <=? c) && (c <=? 70) then Some (c - 55)
  else None.

Definition decode_uXXXX (a b c d : char) : option N :=
  match hexval a, hexval b, hexval c, hexval d with
  | Some x, Some y, Some z, Some t => Some (((x * 16 + y) * 16 + z) * 16 + t)
  | _, _, _, _ => None
  end.

Definition is_high_surrogate (c : N) : bool := (55296 <=? c) && (c <=? 56319).
Definition is_low_surrogate (c : N) : bool := (56320 <=? c) && (c <=? 57343).
Definition join_surrogates (hi lo : N) : N :=
  65536 + N.lor (N.shiftl (hi - 55296) 10) (lo - 56320).

Definition short_escape (e : char) : option char :=
  if e =? dquote then Some dquote
  else if e =? backslash then Some backslash
  else if e =? 47 then Some 47
  else if e =? 98 then Some 8
  else if e =? 102 then Some 12
  else if e =? 110 then Some 10
  else if e =? 114 then Some 13
  else if e =? 116 then Some 9
  else None.

Definition cons_scanned (c : char) (o : option (str * str)) : option (str * str) :=
  match o with
  | Some (s, rest) => Some (c :: s, rest)
  | None => None
  end.

(** [scanstring] in strict mode, from the character after the opening
    quote: the decoded string and the text after the closing quote. *)
Fixpoint scanstring (s : str) : option (str * str) :=
  match s with
  | [] => None
  | c :: r =>
      if c =? dquote then Some ([], r)
      else if c =? backslash then
        match r with
        | [] => None
        | e :: r1 =>
            if e =? 117 then
              match r1 with
              | h1 :: h2 :: h3 :: h4 :: r2 =>
                  match decode_uXXXX h1 h2 h3 h4 with
                  | None => None
                  | Some uni =>
                      if is_high_surrogate uni then
                        match r2 with
                        | b :: u :: g1 :: g2 :: g3 :: g4 :: r3 =>
                            if (b =? backslash) && (u =? 117) then
                              match decode_uXXXX g1 g2 g3 g4 with
                              | None => None
                              | Some uni2 =>
                                  if is_low_surrogate uni2
                                  then cons_scanned (join_surrogates uni uni2)
                                         (scanstring r3)
                                  else cons_scanned uni (scanstring r2)
                              end
                            else cons_scanned uni (scanstring r2)
                        | _ => cons_scanned uni (scanstring r2)
                        end
                      else cons_scanned uni (scanstring r2)
                  end
              | _ => None
              end
            else
              match short_escape e with
              | Some x => cons_scanned x (scanstring r1)
              | None => None
              end
        end
      else if c <? 32 then None
      else cons_scanned c (scanstring r)
  end.

Definition is_json_ws (c : char) : bool :=
  (c =? 32) || (c =? 9) || (c =? 10) || (c =? 13).

Fixpoint skip_ws (s : str) : str :=
  match s with
  | c :: r => if is_json_ws c then skip_ws r else s
  | [] => []
  end.

Definition is_digit (c : char) : bool := (48 <=? c) && (c <=? 57).

Fixpoint span_digits (s : str) : str * str :=
  match s with
  | c :: r =>
      if is_digit c then let '(d, rest) := span_digits r in (c :: d, rest)
      else ([], s)
  | [] => ([], [])
  end.

(** The number grammar: an optional sign, an integer part without a
    leading zero, and an optional fraction and exponent, each taken
    only when it is complete. *)
Definition scan_number (s : str) : option (str * str) :=
  let '(sign, s1) :=
    match s with
    | c :: r => if c =? 45 then ([c], r) else ([], s)
    | [] => ([], s)
    end in
  match s1 with
  | [] => None
  | c :: r =>
      if negb (is_digit c) then None
      else
        let '(int_part, s2) :=
          if c =? 48 then ([c], r)
          else let '(d, rest) := span_digits r in (c :: d, rest) in
        let '(frac, s3) :=
          match s2 with
          | dot :: r2 =>
              if dot =? 46 then
                match span_digits r2 with
                | ([], _) => ([], s2)
                | (d, rest) => (dot :: d, rest)
                end
              else ([], s2)
          | [] => ([], s2)
          end in
        let '(expo, s4) :=
          match s3 with
          | e :: r3 =>
              if (e =? 101) || (e =? 69) then
                let '(sg, r4) :=
                  match r3 with
                  | x :: r3' => if (x =? 43) || (x =? 45) then ([x], r3')
                                else ([], r3)
                  | [] => ([], r3)
                  end in
                match span_digits r4 with
                | ([], _) => ([], s3)
                | (d, rest) => (e :: sg ++ d, rest)
                end
              else ([], s3)
          | [] => ([], s3)
          end in
        Some (sign ++ int_part ++ frac ++ expo, s4)
  end.

Fixpoint strip_prefix (p s : str) : option str :=
  match p with
  | [] => Some s
  | a :: p' =>
      match s with
      | b :: s' => if a =? b then strip_prefix p' s' else None
      | [] => None
      end
  end.

(** The recursive descent of the decoder; [fuel] bounds the nesting. *)
Fixpoint parse_value (fuel : nat) (s : str) : option (json * str) :=
  match fuel with
  | O => None
  | S f =>
      match skip_ws s with
      | [] => None
      | c :: r =>
          if c =? dquote then
            match scanstring r with
            | Some (x, r') => Some (JString x, r')
            | None => None
            end
          else if c =? 123 then
            match skip_ws r with
            | [] => None
            | c1 :: r1 =>
                if c1 =? 125 then Some (JObject [], r1)
                else
                  match parse_members f (c1 :: r1) with
                  | Some (kvs, r') => Some (JObject kvs, r')
                  | None => None
                  end
            end
          else if c =? 91 then
            match skip_ws r with
            | [] => None
            | c1 :: r1 =>
                if c1 =? 93 then Some (JArray [], r1)
                else
                  match parse_elements f (c1 :: r1) with
                  | Some (vs, r') => Some (JArray vs, r')
                  | None => None
                  end
            end
          else
            match strip_prefix (lit "null") (c :: r) with
            | Some r' => Some (JNull, r')
            | None =>
            match strip_prefix (lit "true") (c :: r) with
            | Some r' => Some (JBool true, r')
            | None =>
            match strip_prefix (lit "false") (c :: r) with
            | Some r' => Some (JBool false, r')
            | None =>
            match scan_number (c :: r) with
            | Some (n, r') => Some (JNumber n, r')
            | None => None
            end end end end
      end
  end
with parse_elements (fuel : nat) (s : str) : option (list json * str) :=
  match fuel with
  | O => None
  | S f =>
      match parse_value f s with
      | None => None
      | Some (v, r) =>
          match skip_ws r with
          | [] => None
          | c :: r1 =>
              if c =? 44 then
                match parse_elements f r1 with
                | Some (vs, r2) => Some (v :: vs, r2)
                | None => None
                end
              else if c =? 93 then Some ([v], r1)
              else None
          end
      end
  end
with parse_members (fuel : nat) (s : str) : option (list (str * json) * str) :=
  match fuel with
  | O => None
  | S f =>
      match skip_ws s with
      | [] => None
      | c :: r =>
          if negb (c =? dquote) then None
          else
            match scanstring r with
            | None => None
            | Some (k, r1) =>
                match skip_ws r1 with
                | [] => None
                | c2 :: r2 =>
                    if negb (c2 =? 58) then None
                    else
                      match parse_value f r2 with
                      | None => None
                      | Some (v, r3) =>
                          match skip_ws r3 with
                          | [] => None
                          | c4 :: r4 =>
                              if c4 =? 44 then
                                match parse_members f r4 with
                                | Some (kvs, r5) => Some ((k, v) :: kvs, r5)
                                | None => None
                                end
                              else if c4 =? 125 then Some ([(k, v)], r4)
                              else None
                          end
                      end
                end
            end
      end
  end.

(** [json.loads(s)]: one value, with nothing but white space after it. *)
Definition json_loads (s : str) : option json :=
  match parse_value (S (2 * length s)) s with
  | Some (v, r) => match skip_ws r with [] => Some v | _ => None end
  | None => None
  end.

(** ** Python numbers and slices

    The validation ratio is a float of the program; here it is the
    rational number it stands for and its product with a length is
    exact. For the literal [0.1] and a length below [2^53] the float
    computation [int(k * 0.1)] gives the same [k // 10]. *)

(** [int(x)] truncates towards zero. *)
Definition py_int (x : Q) : Z := Z.quot (Qnum x) (Zpos (Qden x)).

(** [n * x] for a length [n] and a ratio [x], taken exactly. *)
Definition scale (n : nat) (x : Q) : Q := (inject_Z (Z.of_nat n) * x)%Q.

(** The bound of a slice [l[:k]] or [l[k:]]: a negative index counts
    from the end and every index is clipped to the list. *)
Definition slice_index (len : nat) (k : Z) : nat :=
  Z.to_nat (Z.min (Z.of_nat len)
                  (if (k <? 0)%Z then Z.max 0 (k + Z.of_nat len) else k)).

Definition slice_to {A} (k : Z) (l : list A) : list A :=
  take (slice_index (length l) k) l.

Definition slice_from {A} (k : Z) (l : list A) : list A :=
  drop (slice_index (length l) k) l.

(** ** Exceptions *)

Inductive exn := ValueError | OSError.

Inductive res (A : Type) :=
| Ret (a : A)
| Raise (e : exn).
Arguments Ret {A} a.
Arguments Raise {A} e.

Definition bind {A B} (m : res A) (k : A -> res B) : res B :=
  match m with
  | Ret a => k a
  | Raise e => Raise e
  end.

Notation "x <- m ;; k" := (bind m (fun x => k))
  (at level 100, m at next level, right associativity).

(** ** [random.sample]

    The selection loop over a pool: draw [j] below the number of
    elements left, take [pool[j]] and move the last element of the pool
    into its place. The draws of the generator are read from [rnd].
    (For large populations the library draws positions and rejects
    repeats instead; the lists it can return are the same.) *)
Fixpoint sample_loop {A} (k : nat) (rnd : list nat) (pool : list A) : list A :=
  match k with
  | O => []
  | S k' =>
      let m := length pool in
      let j := (hd 0 rnd mod m)%nat in
      match pool !! j, last pool with
      | Some x, Some y =>
          x :: sample_loop k' (tl rnd) (take (m - 1) (<[j := y]> pool))
      | _, _ => []
      end
  end.

Definition random_sample {A} (rnd : list nat) (population : list A) (k : Z)
  : res (list A) :=
  if ((0 <=? k) && (k <=? Z.of_nat (length population)))%Z
  then Ret (sample_loop (Z.to_nat k) rnd population)
  else Raise ValueError.

(** ** The project directory and [os.walk] *)

Inductive platform := Posix | Windows.

Definition os_sep (p : platform) : char :=
  match p with Posix => 47 | Windows => 92 end.

(** A file holds what reading it as text returns, [None] when the read
    fails; a directory lists its entries in the order the system
    reports them. *)
Inductive node :=
| File (data : option str)
| Dir (entries : list (str * node)).

(** A path below the project directory, by its components. *)
Abbreviation path := (list (list N)) (only parsing).

Definition is_dir (n : node) : bool :=
  match n with Dir _ => true | File _ => false end.

Definition dirnames (entries : list (str * node)) : list str :=
  map fst (filter (fun e => is_dir (snd e) = true) entries).

Definition filenames (entries : list (str * node)) : list str :=
  map fst (filter (fun e => is_dir (snd e) = false) entries).

(** [os.walk(top)], top down: the directory itself, then each of its
    subdirectories in turn. *)
Fixpoint os_walk (top : path) (n : node) : list (path * list str * list str) :=
  match n with
  | File _ => []
  | Dir entries =>
      (top, dirnames entries, filenames entries) ::
      (fix subdirs (l : list (str * node)) :=
         match l with
         | [] => []
         | (d, sub) :: l' => os_walk (top ++ [d]) sub ++ subdirs l'
         end) entries
  end.

Fixpoint find_entry (name : str) (entries : list (str * node)) : option node :=
  match entries with
  | [] => None
  | (n, x) :: rest => if str_eqb n name then Some x else find_entry name rest
  end.

Fixpoint fs_lookup (n : node) (p : path) : option node :=
  match p with
  | [] => Some n
  | c :: p' =>
      match n with
      | File _ => None
      | Dir entries =>
          match find_entry c entries with
          | Some x => fs_lookup x p'
          | None => None
          end
      end
  end.

(** ** [pathspec] *)

(** A compiled pattern: whether it includes or excludes ([None] for a
    comment or blank line) and the paths its expression matches. *)
Record Pattern := {
  include : option bool;
  matches : path -> bool
}.

Abbreviation PathSpec := (list Pattern) (only parsing).

(** [PathSpec.match_file]: the last pattern that matches decides. *)
Definition match_file (patterns : PathSpec) (file : path) : bool :=
  match
    fold_left
      (fun out p =>
         match include p with
         | Some inc => if matches p file then Some inc else out
         | None => out
         end) patterns None
  with
  | Some true => true
  | _ => false
  end.

(** ** The environment of a run

    The platform, the entries of the project directory, the pattern
    compiler of [pathspec] applied to the text of an ignore file, the
    numbers the random generator returns, the time stamp
    [datetime.now().strftime("%Y%m%d_%H%M%S")] and the file names that
    can be opened for writing. *)

Record World := {
  os : platform;
  project_dir : list (str * node);
  gitwildmatch : str -> PathSpec;
  draws : list nat;
  now : str;
  can_write : str -> bool
}.

(** [os.path.relpath(file_path, self.project_path)] for a path below
    the project directory. *)
Definition relpath (w : World) (file_path : path) : str :=
  str_join [os_sep (os w)] file_path.

(** ** [ProjectDataGenerator] *)

Record ProjectDataGenerator := {
  project_name : str;
  use_gitignore : bool;
  validation_ratio : Q;
  jsonl_data : list pyobj;
  validation_questions : list pyobj;
  unique_lines : list (str * str);
  token_count : nat;
  spec : option PathSpec
}.

Definition set_jsonl_data (self : ProjectDataGenerator) (v : list pyobj) :=
  {| project_name := project_name self;
     use_gitignore := use_gitignore self;
     validation_ratio := validation_ratio self;
     jsonl_data := v;
     validation_questions := validation_questions self;
     unique_lines := unique_lines self;
     token_count := token_count self;
     spec := spec self |}.

Definition set_validation_questions (self : ProjectDataGenerator) (v : list pyobj) :=
  {| project_name := project_name self;
     use_gitignore := use_gitignore self;
     validation_ratio := validation_ratio self;
     jsonl_data := jsonl_data self;
     validation_questions := v;
     unique_lines := unique_lines self;
     token_count := token_count self;
     spec := spec self |}.

Definition set_unique_lines (self : ProjectDataGenerator) (v : list (str * str)) :=
  {| project_name := project_name self;
     use_gitignore := use_gitignore self;
     validation_ratio := validation_ratio self;
     jsonl_data := jsonl_data self;
     validation_questions := validation_questions self;
     unique_lines := v;
     token_count := token_count self;
     spec := spec self |}.

Definition set_token_count (self : ProjectDataGenerator) (v : nat) :=
  {| project_name := project_name self;
     use_gitignore := use_gitignore self;
     validation_ratio := validation_ratio self;
     jsonl_data := jsonl_data self;
     validation_questions := validation_questions self;
     unique_lines := unique_lines self;
     token_count := v;
     spec := spec self |}.

(** The dictionary every entry is: a user turn and an assistant turn. *)
Definition messages (user assistant : str) : pyobj :=
  PyDict
    [(lit "messages",
      PyList
        [PyDict [(lit "role", PyStr (lit "user")); (lit "content", PyStr user)];
         PyDict [(lit "role", PyStr (lit "assistant"));
                 (lit "content", PyStr assistant)]])].

(** [load_gitignore]: a missing file is tolerated, any other failure
    to read it is not caught. *)
Definition load_gitignore (w : World) : res (option PathSpec) :=
  match find_entry (lit ".gitignore") (project_dir w) with
  | None => Ret None
  | Some (File (Some text)) => Ret (Some (gitwildmatch w text))
  | Some _ => Raise OSError
  end.

(** The fields [__init__] sets, for the ignore specification [s]. *)
Definition new_generator (name : str) (use_gitignore : bool) (ratio : Q)
    (s : option PathSpec) : ProjectDataGenerator :=
  {| project_name := name;
     use_gitignore := use_gitignore;
     validation_ratio := ratio;
     jsonl_data := [];
     validation_questions := [];
     unique_lines := [];
     token_count := 0;
     spec := s |}.

(** [__init__] *)
Definition init (w : World) (name : str) (use_gitignore : bool) (ratio : Q)
  : res ProjectDataGenerator :=
  s <- (if use_gitignore then load_gitignore w else Ret None) ;;
  Ret (new_generator name use_gitignore ratio s).

(** [self.spec and self.spec.match_file(file_path)]; a [PathSpec]
    without patterns is false. *)
Definition ignored (self : ProjectDataGenerator) (file_path : path) : bool :=
  match spec self with
  | None => false
  | Some patterns =>
      negb (Nat.eqb (length patterns) 0) && match_file patterns file_path
  end.

(** [open(file_path, 'r').read()]: the text, or [None] for any failure. *)
Definition read_text (w : World) (file_path : path) : option str :=
  match fs_lookup (Dir (project_dir w)) file_path with
  | Some (File (Some text)) => Some text
  | _ => None
  end.

(** [get_file_content] *)
Definition get_file_content (w : World) (file_path : path) : str :=
  match read_text w file_path with
  | Some text => text
  | None => []
  end.

(** [tokenize] *)
Definition tokenize (text : str) : list str := str_split text.

Definition dict_contains (d : list (str * str)) (key : str) : bool :=
  existsb (fun kv => str_eqb (fst kv) key) d.

(** The loop of [update_unique_lines] over the dictionary [d]. *)
Definition add_lines (d : list (str * str)) (lines : list str) (file_path : str)
  : list (str * str) :=
  fold_left
    (fun d line => if dict_contains d line then d else d ++ [(line, file_path)])
    lines d.

(** [update_unique_lines] *)
Definition update_unique_lines (self : ProjectDataGenerator)
    (content file_path : str) : ProjectDataGenerator :=
  set_unique_lines self
    (add_lines (unique_lines self) (splitlines content) file_path).

(** [generate_source_code_entry] *)
Definition generate_source_code_entry (self : ProjectDataGenerator)
    (file_path content : str) : pyobj :=
  messages
    (lit "What is the source code of " ++ file_path ++ lit " for the "
     ++ project_name self ++ lit " project?")
    content.

(** [generate_validation_questions] *)
Definition generate_validation_questions (w : World) (self : ProjectDataGenerator)
  : res (list pyobj) :=
  selected_lines <-
    random_sample (draws w) (unique_lines self)
      (py_int (scale (length (unique_lines self)) (validation_ratio self))) ;;
  Ret (map
         (fun '(line, file_path) =>
            messages
              (lit "In the " ++ project_name self
               ++ lit " project, where can I find this line of code: '"
               ++ line ++ lit "'?")
              (json_dumps (PyDict [(lit "file_path", PyStr file_path)])))
         selected_lines).

(** [get_project_structure] *)
Definition get_project_structure (w : World) (self : ProjectDataGenerator)
  : list str :=
  fold_left
    (fun file_paths '(root, _, files) =>
       fold_left
         (fun file_paths file =>
            if negb (endswith file (lit ".ts") || endswith file (lit ".tsx"))
            then file_paths
            else
              let file_path := root ++ [file] in
              if ignored self file_path then file_paths
              else
                let relative_file_path := relpath w file_path in
                file_paths
                ++ [str_replace (os_sep (os w)) (lit "/") relative_file_path])
         files file_paths)
    (os_walk [] (Dir (project_dir w))) [].

(** [generate_project_structure_question] *)
Definition generate_project_structure_question (self : ProjectDataGenerator)
    (project_structure : list str) : pyobj :=
  let question :=
    lit "What is the file structure of the " ++ project_name self
    ++ lit " project? "
    ++ lit "Please answer with json with the next structure: "
    ++ lit "{" ++ [dquote] ++ lit "project_structure" ++ [dquote] ++ lit ": ["
    ++ [dquote] ++ lit "file1" ++ [dquote] ++ lit ", "
    ++ [dquote] ++ lit "file2" ++ [dquote] ++ lit ", ...]}" in
  let answer :=
    json_dumps
      (PyDict [(lit "project_structure", PyList (map PyStr project_structure))]) in
  messages question answer.

(** The files written, by name. *)
Abbreviation files := (list (list N * list N)) (only parsing).

Fixpoint read_back (out : files) (file_name : str) : option str :=
  match out with
  | [] => None
  | (n, text) :: rest =>
      match read_back rest file_name with
      | Some t => Some t
      | None => if str_eqb n file_name then Some text else None
      end
  end.

(** [write_jsonl_file]: one entry per line; a failure to open the file
    is logged and nothing is written. *)
Definition write_jsonl_file (w : World) (data : list pyobj) (file_name : str)
    (out : files) : files :=
  if can_write w file_name
  then out ++ [(file_name, flat_map (fun entry => json_dumps entry ++ [LF]) data)]
  else out.

Definition training_file_name (self : ProjectDataGenerator) (current_datetime : str) :=
  project_name self ++ lit "_training_" ++ current_datetime ++ lit ".jsonl".

Definition validation_file_name (self : ProjectDataGenerator) (current_datetime : str) :=
  project_name self ++ lit "_validation_" ++ current_datetime ++ lit ".jsonl".

(** [write_jsonl_files] *)
Definition write_jsonl_files (w : World) (self : ProjectDataGenerator)
    (current_datetime : str) : files :=
  let training_file_name := training_file_name self current_datetime in
  let validation_file_name := validation_file_name self current_datetime in
  write_jsonl_file w (validation_questions self) validation_file_name
    (write_jsonl_file w (jsonl_data self) training_file_name []).

(** The dictionary [generate_data] returns. *)
Record Report := {
  report_project_name : str;
  report_token_count : nat;
  training_file : str;
  validation_file : str
}.

(** The body of the loop over the files of a directory. *)
Definition visit (w : World) (root : path) (self : ProjectDataGenerator)
    (file : str) : ProjectDataGenerator :=
  let file_path := root ++ [file] in
  if ignored self file_path then self
  else
    let content := get_file_content w file_path in
    let relative_file_path := relpath w file_path in
    let self :=
      set_jsonl_data self
        (jsonl_data self
         ++ [generate_source_code_entry self relative_file_path content]) in
    let self :=
      set_token_count self (token_count self + length (tokenize content)) in
    update_unique_lines self content relative_file_path.

(** The traversal of [generate_data]. *)
Definition scan (w : World) (self : ProjectDataGenerator) : ProjectDataGenerator :=
  fold_left
    (fun self '(root, _, files) => fold_left (visit w root) files self)
    (os_walk [] (Dir (project_dir w))) self.

(** [generate_data] *)
Definition generate_data (w : World) (self : ProjectDataGenerator)
  : res (ProjectDataGenerator * Report * files) :=
  let self := scan w self in
  questions <- generate_validation_questions w self ;;
  let self := set_validation_questions self questions in
  let additional_training_q :=
    slice_to (py_int (scale (length (validation_questions self)) (1 # 10)))
      (validation_questions self) in
  let self := set_jsonl_data self (jsonl_data self ++ additional_training_q) in
  let self :=
    set_validation_questions self
      (slice_from (py_int (scale (length (validation_questions self)) (1 # 10)))
         (validation_questions self)) in
  let project_structure_question :=
    generate_project_structure_question self (get_project_structure w self) in
  let self := set_jsonl_data self (jsonl_data self ++ [project_structure_question]) in
  let current_datetime := now w in
  let out := write_jsonl_files w self current_datetime in
  Ret (self,
       {| report_project_name := project_name self;
          report_token_count := token_count self;
          training_file := training_file_name self current_datetime;
          validation_file := validation_file_name self current_datetime |},
       out).

(** The script: build the generator, then generate. *)
Definition main (w : World) (name : str) (use_gitignore : bool) (ratio : Q)
  : res (ProjectDataGenerator * Report * files) :=
  generator <- init w name use_gitignore ratio ;;
  generate_data w generator.

(** ** Notions of the specification *)

(** The files of the traversal, each with the directory that lists it. *)
Definition walked_files (w : World) : list (path * str) :=
  flat_map (fun '(root, _, files) => map (fun file => (root, file)) files)
    (os_walk [] (Dir (project_dir w))).

(** [os.path.join(root, file)] *)
Definition file_path_of (rf : path * str) : path := fst rf ++ [snd rf].

(** The files the traversal does not skip, in traversal order. *)
Definition scanned (w : World) (self : ProjectDataGenerator) : list path :=
  filter (fun p => ignored self p = false) (map file_path_of (walked_files w)).

(** What the loop does with a file it does not skip. *)
Definition absorb (w : World) (self : ProjectDataGenerator) (file_path : path)
  : ProjectDataGenerator :=
  update_unique_lines
    (set_token_count
       (set_jsonl_data self
          (jsonl_data self
           ++ [generate_source_code_entry self (relpath w file_path)
                 (get_file_content w file_path)]))
       (token_count self + length (tokenize (get_file_content w file_path))))
    (get_file_content w file_path) (relpath w file_path).

Definition source_code_entry (w : World) (name : str) (p : path) : pyobj :=
  messages
    (lit "What is the source code of " ++ relpath w p ++ lit " for the "
     ++ name ++ lit " project?")
    (get_file_content w p).

Definition line_location_entry (name : str) (item : str * str) : pyobj :=
  messages
    (lit "In the " ++ name
     ++ lit " project, where can I find this line of code: '"
     ++ fst item ++ lit "'?")
    (json_dumps (PyDict [(lit "file_path", PyStr (snd item))])).

Definition lines_of (w : World) (p : path) : list str :=
  splitlines (get_file_content w p).

Definition tokens_of (w : World) (p : path) : nat :=
  length (tokenize (get_file_content w p)).

(** The file names with one of the two listed extensions. *)
Definition allow_listed (file : str) : bool :=
  endswith file (lit ".ts") || endswith file (lit ".tsx").

(** A relative path with forward slashes. *)
Definition normalized (w : World) (p : path) : str :=
  str_replace (os_sep (os w)) (lit "/") (relpath w p).

(** The ratios the configuration allows. *)
Definition valid_ratio (q : Q) : Prop := (0 <= q)%Q /\ (q <= 1)%Q.

(** Number of entries sampled from [n] unique lines. *)
Definition sample_size (n : nat) (q : Q) : nat := Z.to_nat (Qfloor (scale n q)).

(** The JSON value of an entry with the given turns. *)
Definition chat (user assistant : str) : json :=
  JObject
    [(lit "messages",
      JArray
        [JObject [(lit "role", JString (lit "user"));
                  (lit "content", JString user)];
         JObject [(lit "role", JString (lit "assistant"));
                  (lit "content", JString assistant)]])].

(** A line that reads back as an entry. *)
Definition chat_line (line : str) : Prop :=
  exists user assistant, json_loads line = Some (chat user assistant).

(** The same environment with other results of the random generator. *)
Definition with_draws (w : World) (rnd : list nat) : World :=
  {| os := os w;
     project_dir := project_dir w;
     gitwildmatch := gitwildmatch w;
     draws := rnd;
     now := now w;
     can_write := can_write w |}.

(** *** Example projects *)

Definition plain_world (dir : list (str * node)) : World :=
  {| os := Posix;
     project_dir := dir;
     gitwildmatch := fun _ => [];
     draws := [];
     now := lit "20240101_120000";
     can_write := fun _ => true |}.

Definition project_ab : list (str * node) :=
  [(lit "a.ts", File (Some (lit "x"))); (lit "b.md", File (Some (lit "x")))].

Definition project_ba : list (str * node) :=
  [(lit "b.md", File (Some (lit "x"))); (lit "a.ts", File (Some (lit "x")))].

(** A project with a blank line, an unreadable file, an empty file and
    a build directory. *)
Definition demo_project : list (str * node) :=
  [(lit "main.ts", File (Some (lit "import x" ++ [LF; LF] ++ lit "run()")));
   (lit "notes.md", File (Some (lit "run()")));
   (lit "broken.tsx", File None);
   (lit "empty.ts", File (Some []));
   (lit "dist", Dir [(lit "out.ts", File (Some (lit "compiled")))]);
   (lit "src", Dir [(lit "app.tsx",
                     File (Some (lit "import x" ++ [LF] ++ lit "render()")))])].

(** The pattern [dist/]. *)
Definition dist_pattern : Pattern :=
  {| include := Some true;
     matches := fun p => bool_decide (head p = Some (lit "dist")) |}.

Definition demo_generator (ratio : Q) : ProjectDataGenerator :=
  new_generator (lit "demo") true ratio (Some [dist_pattern]).

(** The loop body, by the path of the file. *)
Definition visit_path (w : World) (self : ProjectDataGenerator) (p : path)
  : ProjectDataGenerator :=
  if ignored self p then self else absorb w self p.

(** The dictionary after the lines of the files [ps] are added to [d]. *)
Definition collect_lines (w : World) (d : list (str * str)) (ps : list path)
  : list (str * str) :=
  fold_left (fun d p => add_lines d (lines_of w p) (relpath w p)) ps d.

(** The last component of a path: the name of the file. *)
Definition file_name (p : path) : str :=
  match last p with
  | Some name => name
  | None => []
  end.

(** The listing of the files [ps]: those with a listed extension, normalized. *)
Definition structure_of (w : World) (ps : list path) : list str :=
  map (normalized w) (filter (fun p => allow_listed (file_name p) = true) ps).

(** Two environments that agree on everything but the files a
    generator skips. *)
Definition same_scanned_files (self : ProjectDataGenerator) (w w' : World) : Prop :=
  os w' = os w
  /\ draws w' = draws w
  /\ now w' = now w
  /\ (forall file_name, can_write w' file_name = can_write w file_name)
  /\ scanned w' self = scanned w self
  /\ forall p, p ∈ scanned w self -> read_text w' p = read_text w p.

(** The demo project with other content in its build directory. *)
Definition demo_project_rebuilt : list (str * node) :=
  [(lit "main.ts", File (Some (lit "import x" ++ [LF; LF] ++ lit "run()")));
   (lit "notes.md", File (Some (lit "run()")));
   (lit "broken.tsx", File None);
   (lit "empty.ts", File (Some []));
   (lit "dist", Dir [(lit "out.ts", File (Some (lit "run()" ++ [LF] ++ lit "other")));
                     (lit "extra.ts", File (Some (lit "more")))]);
   (lit "src", Dir [(lit "app.tsx",
                     File (Some (lit "import x" ++ [LF] ++ lit "render()")))])].

(** A string of printable characters other than the quote and the
    backslash is written and read as it is. *)
Definition plain (s : str) : Prop :=
  Forall (fun c => 32 <= c /\ c <= 126 /\ c <> dquote /\ c <> backslash) s.


Definition plainb (s : str) : bool :=
  forallb
    (fun c => (32 <=? c) && (c <=? 126) && negb (c =? dquote)
              && negb (c =? backslash)) s.

(** The characters between the space and the tilde. *)
Definition printable (s : str) : Prop := Forall (fun c => 32 <= c /\ c <= 126) s.

(** The entries: dictionaries made by [messages]. *)
Definition is_entry (e : pyobj) : Prop := exists user assistant, e = messages user assistant.

(** Text without high surrogates, as any decoded file content is. *)
Definition no_high_surrogate (s : str) : Prop :=
  Forall (fun c => is_high_surrogate c = false /\ c < 1114112) s.

Definition set_use_gitignore (self : ProjectDataGenerator) (v : bool) :=
  {| project_name := project_name self;
     use_gitignore := v;
     validation_ratio := validation_ratio self;
     jsonl_data := jsonl_data self;
     validation_questions := validation_questions self;
     unique_lines := unique_lines self;
     token_count := token_count self;
     spec := spec self |}.

(** The same environment with other files that can be opened for writing. *)
Definition with_can_write (w : World) (f : str -> bool) : World :=
  {| os := os w;
     project_dir := project_dir w;
     gitwildmatch := gitwildmatch w;
     draws := draws w;
     now := now w;
     can_write := f |}.

(** The entries that ask for the source code of a file. *)
Definition is_source_code_entry (e : pyobj) : Prop :=
  exists rest content,
    e = messages (lit "What is the source code of " ++ rest) content.

(** The text written for a list of entries. *)
Definition jsonl_text (data : list pyobj) : str :=
  flat_map (fun entry => json_dumps entry ++ [LF]) data.





(** An environment on a platform whose separator is the backslash. *)
Definition windows_world (dir : list (str * node)) : World :=
  {| os := Windows;
     project_dir := dir;
     gitwildmatch := fun _ => [];
     draws := [];
     now := lit "20240101_120000";
     can_write := fun _ => true |}.

(** An environment in which no file can be opened for writing. *)
Definition read_only_world (dir : list (str * node)) : World :=
  {| os := Posix;
     project_dir := dir;
     gitwildmatch := fun _ => [];
     draws := [];
     now := lit "20240101_120000";
     can_write := fun _ => false |}.

(** * Properties *)

(** ** The library functions on examples *)

Example splitlines_example :
  splitlines (lit "a" ++ [CR; LF] ++ lit "b" ++ [LF; LF] ++ lit "c" ++ [LF])
  = [lit "a"; lit "b"; []; lit "c"].
Proof. reflexivity. Qed.

Example splitlines_lone_newline : splitlines [LF] = [[]].
Proof. reflexivity. Qed.

Example str_split_example :
  str_split ([32] ++ lit "ab" ++ [9; 32] ++ lit "c" ++ [LF]) = [lit "ab"; lit "c"].
Proof. reflexivity. Qed.

Example escape_char_latin : escape_char 233 = lit "\u00e9".
Proof. reflexivity. Qed.

Example escape_char_astral : escape_char 128512 = lit "\ud83d\ude00".
Proof. reflexivity. Qed.

Example json_dumps_example :
  json_dumps (PyDict [(lit "file_path", PyStr (lit "src" ++ [backslash] ++ lit "a.ts"))])
  = lit "{" ++ [dquote] ++ lit "file_path" ++ [dquote] ++ lit ": " ++ [dquote]
    ++ lit "src" ++ [backslash; backslash] ++ lit "a.ts" ++ [dquote] ++ lit "}".
Proof. reflexivity. Qed.

Example json_loads_example :
  json_loads (lit " [1, -2.5e+3 , true,null, {}, [ ]] ")
  = Some (JArray [JNumber (lit "1"); JNumber (lit "-2.5e+3"); JBool true; JNull;
                  JObject []; JArray []]).
Proof. reflexivity. Qed.

Example json_loads_rejects : json_loads (lit "[1, 01]") = None.
Proof. reflexivity. Qed.

Example sample_loop_example :
  sample_loop 2 [1; 0]%nat [10; 20; 30] = [20; 10].
Proof. reflexivity. Qed.

Example random_sample_too_large :
  random_sample [] [10; 20; 30] 4 = Raise ValueError.
Proof. reflexivity. Qed.

Example py_int_example : py_int (scale 7 (2 # 5)) = 2%Z /\ py_int (-3 # 2) = (-1)%Z.
Proof. split; reflexivity. Qed.

Example match_file_last_wins :
  match_file
    [dist_pattern;
     {| include := Some false;
        matches := fun p => bool_decide (last p = Some (lit "keep.ts")) |}]
    [lit "dist"; lit "keep.ts"] = false.
Proof. reflexivity. Qed.

Example os_walk_example :
  os_walk [] (Dir demo_project)
  = [([], [lit "dist"; lit "src"],
      [lit "main.ts"; lit "notes.md"; lit "broken.tsx"; lit "empty.ts"]);
     ([lit "dist"], [], [lit "out.ts"]);
     ([lit "src"], [], [lit "app.tsx"])].
Proof. reflexivity. Qed.

(** ** Numbers and slices *)

Lemma py_int_floor (x : Q) : (0 <= x)%Q -> py_int x = Qfloor x.
Proof.
  destruct x as [a b]. unfold Qle, py_int, Qfloor. simpl. intros H.
  apply Z.quot_div_nonneg; lia.
Qed.

Lemma scale_nonneg (n : nat) (q : Q) : (0 <= q)%Q -> (0 <= scale n q)%Q.
Proof.
  intros H. unfold scale. apply Qmult_le_0_compat; [|done].
  change 0%Q with (inject_Z 0). rewrite <- Zle_Qle. lia.
Qed.

Lemma scale_le (n : nat) (q : Q) :
  (q <= 1)%Q -> (scale n q <= inject_Z (Z.of_nat n))%Q.
Proof.
  destruct q as [a b]. unfold scale, Qle, Qmult, inject_Z. simpl. nia.
Qed.

Lemma floor_scale_bounds (n : nat) (q : Q) :
  valid_ratio q -> (0 <= Qfloor (scale n q) <= Z.of_nat n)%Z.
Proof.
  intros [H0 H1]. split.
  - change 0%Z with (Qfloor (inject_Z 0)).
    apply Qfloor_resp_le. by apply scale_nonneg.
  - pose proof (Qfloor_resp_le _ _ (scale_le n q H1)) as H.
    by rewrite Qfloor_Z in H.
Qed.

Lemma sample_size_le (n : nat) (q : Q) : valid_ratio q -> (sample_size n q <= n)%nat.
Proof.
  intros H. unfold sample_size. pose proof (floor_scale_bounds n q H). lia.
Qed.

Lemma py_int_scale (n : nat) (q : Q) :
  valid_ratio q -> py_int (scale n q) = Z.of_nat (sample_size n q).
Proof.
  intros H. rewrite py_int_floor by (apply scale_nonneg, H).
  unfold sample_size. pose proof (floor_scale_bounds n q H). lia.
Qed.

Lemma tenth_valid : valid_ratio (1 # 10).
Proof. split; unfold Qle; simpl; lia. Qed.

Lemma sample_size_tenth (k : nat) : sample_size k (1 # 10) = (k / 10)%nat.
Proof.
  unfold sample_size, scale, Qfloor, Qmult, inject_Z.
  change (Qnum (Z.of_nat k # 1) * Qnum (1 # 10))%Z with (Z.of_nat k * 1)%Z.
  change (Z.pos (Qden (Z.of_nat k # 1) * Qden (1 # 10))) with (Z.of_nat 10).
  rewrite Z.mul_1_r, <- Nat2Z.inj_div. apply Nat2Z.id.
Qed.

Lemma slice_index_nat (len k : nat) : slice_index len (Z.of_nat k) = Nat.min len k.
Proof.
  unfold slice_index. destruct (Z.ltb_spec (Z.of_nat k) 0); lia.
Qed.

Lemma slice_to_from {A} (k : Z) (l : list A) : slice_to k l ++ slice_from k l = l.
Proof. apply take_drop. Qed.

Lemma slice_to_length {A} (k : nat) (l : list A) :
  (k <= length l)%nat -> length (slice_to (Z.of_nat k) l) = k.
Proof.
  intros H. unfold slice_to. rewrite slice_index_nat, length_take. lia.
Qed.

(** ** Sampling *)

Lemma sample_step_perm {A} (pool : list A) (j : nat) (x y : A) :
  pool !! j = Some x -> last pool = Some y ->
  x :: take (length pool - 1) (<[j := y]> pool) ≡ₚ pool.
Proof.
  intros Hj Hlast. apply last_Some in Hlast as [l ->].
  rewrite length_app. simpl.
  replace (length l + 1 - 1)%nat with (length l) by lia.
  destruct (decide (j < length l)%nat) as [Hlt|Hge].
  - rewrite lookup_app_l in Hj by done.
    rewrite insert_app_l by done.
    rewrite take_app_length' by (by rewrite length_insert).
    rewrite insert_take_drop by done.
    rewrite <- (take_drop_middle l j x Hj) at 3.
    rewrite <- !app_assoc. simpl.
    rewrite Permutation_middle.
    apply Permutation_app_head, perm_skip, Permutation_cons_append.
  - assert (j = length l) as ->.
    { apply lookup_lt_Some in Hj. rewrite length_app in Hj. simpl in Hj. lia. }
    rewrite list_lookup_middle in Hj by done. injection Hj as ->.
    rewrite list_insert_id by (by rewrite list_lookup_middle).
    rewrite take_app_length. by rewrite (Permutation_app_comm l [x]).
Qed.

Lemma sample_loop_spec {A} (k : nat) (rnd : list nat) (pool : list A) :
  (k <= length pool)%nat ->
  length (sample_loop k rnd pool) = k /\ sample_loop k rnd pool ⊆+ pool.
Proof.
  revert rnd pool. induction k as [|k IH]; intros rnd pool Hk; simpl.
  - split; [done|]. apply submseteq_nil_l.
  - assert (0 < length pool)%nat as Hpos by lia.
    assert (hd 0 rnd mod length pool < length pool)%nat as Hj
      by (apply Nat.mod_upper_bound; lia).
    destruct (lookup_lt_is_Some_2 pool _ Hj) as [x Hx]. rewrite Hx.
    destruct (last pool) as [y|] eqn:Hy.
    2:{ apply last_None in Hy. subst pool. simpl in Hpos. lia. }
    pose proof (sample_step_perm pool _ x y Hx Hy) as Hperm.
    destruct (IH (tl rnd) (take (length pool - 1) (<[(hd 0 rnd mod length pool)%nat := y]> pool)))
      as [Hlen Hsub].
    { rewrite length_take, length_insert. lia. }
    split; [simpl; by rewrite Hlen|].
    etrans; [by apply submseteq_skip|]. by apply Permutation_submseteq.
Qed.

Lemma sample_loop_first {A} (k j : nat) (rnd : list nat) (pool : list A) (x : A) :
  pool !! j = Some x -> x ∈ sample_loop (S k) (j :: rnd) pool.
Proof.
  intros Hx. simpl.
  pose proof (lookup_lt_Some _ _ _ Hx) as Hlt.
  rewrite Nat.mod_small by done. rewrite Hx.
  destruct (last pool) as [y|] eqn:Hy.
  - apply elem_of_cons. by left.
  - apply last_None in Hy. subst pool. simpl in Hlt. lia.
Qed.

Lemma random_sample_ok {A} (rnd : list nat) (population : list A) (k : nat) :
  (k <= length population)%nat ->
  exists selected,
    random_sample rnd population (Z.of_nat k) = Ret selected
    /\ selected = sample_loop k rnd population
    /\ length selected = k
    /\ selected ⊆+ population.
Proof.
  intros Hk. exists (sample_loop k rnd population).
  destruct (sample_loop_spec k rnd population Hk) as [Hlen Hsub].
  repeat split; try done.
  unfold random_sample. rewrite Nat2Z.id.
  destruct (Z.leb_spec 0 (Z.of_nat k)); [|lia].
  destruct (Z.leb_spec (Z.of_nat k) (Z.of_nat (length population))); [done|lia].
Qed.

(** ** The traversal *)

Lemma visit_visit_path (w : World) (root : path) (self : ProjectDataGenerator)
    (file : str) :
  visit w root self file = visit_path w self (root ++ [file]).
Proof. reflexivity. Qed.

Lemma scan_fold (w : World) (self : ProjectDataGenerator) :
  scan w self = fold_left (visit_path w) (map file_path_of (walked_files w)) self.
Proof.
  unfold scan, walked_files.
  generalize (os_walk [] (Dir (project_dir w))). intros triples.
  revert self. induction triples as [|[[root dirs] fs] triples IH]; intros self.
  - reflexivity.
  - simpl. rewrite map_app, fold_left_app, IH. f_equal.
    clear. revert self. induction fs as [|f fs IH]; intros self; [done|].
    simpl. by rewrite IH.
Qed.

Lemma fold_visit_kept (w : World) (ps : list path) (self : ProjectDataGenerator) :
  fold_left (visit_path w) ps self
  = fold_left (absorb w) (filter (fun p => ignored self p = false) ps) self.
Proof.
  revert self. induction ps as [|p ps IH]; intros self; [done|].
  simpl. rewrite filter_cons. unfold visit_path at 2.
  destruct (ignored self p) eqn:Hp.
  - rewrite IH. by rewrite decide_False.
  - rewrite decide_True by done. simpl. by rewrite IH.
Qed.

Lemma scan_kept (w : World) (self : ProjectDataGenerator) :
  scan w self = fold_left (absorb w) (scanned w self) self.
Proof. by rewrite scan_fold, fold_visit_kept. Qed.

Lemma absorb_all_fields (w : World) (ps : list path) (self : ProjectDataGenerator) :
  let self' := fold_left (absorb w) ps self in
  spec self' = spec self
  /\ project_name self' = project_name self
  /\ validation_ratio self' = validation_ratio self
  /\ validation_questions self' = validation_questions self
  /\ jsonl_data self'
     = jsonl_data self ++ map (source_code_entry w (project_name self)) ps
  /\ token_count self' = (token_count self + sum_list (map (tokens_of w) ps))%nat
  /\ unique_lines self' = collect_lines w (unique_lines self) ps.
Proof.
  revert self. induction ps as [|p ps IH]; intros self; simpl.
  - rewrite app_nil_r. repeat split; try done; lia.
  - destruct (IH (absorb w self p)) as (H1 & H2 & H3 & H4 & H5 & H6 & H7).
    rewrite H1, H2, H3, H4, H5, H6, H7. simpl.
    repeat split; try done.
    + by rewrite <- app_assoc.
    + unfold tokens_of. lia.
Qed.

(** ** The unique-line table *)

Lemma dict_contains_keys (d : list (str * str)) (k : str) :
  dict_contains d k = true <-> k ∈ d.*1.
Proof.
  unfold dict_contains. rewrite existsb_exists, list_elem_of_fmap.
  split.
  - intros [[k' v] [Hin Heq]]. unfold str_eqb in Heq. simpl in Heq.
    apply bool_decide_eq_true in Heq. subst k'.
    exists (k, v). split; [done|]. by apply list_elem_of_In.
  - intros [[k' v] [-> Hin]]. exists (k', v). split.
    + by apply list_elem_of_In.
    + by apply bool_decide_eq_true.
Qed.

Lemma add_lines_cons (d : list (str * str)) (l : str) (ls : list str) (fp : str) :
  add_lines d (l :: ls) fp
  = add_lines (if dict_contains d l then d else d ++ [(l, fp)]) ls fp.
Proof. reflexivity. Qed.

Lemma add_lines_elem (d : list (str * str)) (ls : list str) (fp k v : str) :
  (k, v) ∈ add_lines d ls fp
  <-> (k, v) ∈ d \/ ((k ∉ d.*1) /\ k ∈ ls /\ v = fp).
Proof.
  revert d. induction ls as [|l ls IH]; intros d.
  - simpl. split; [by left|]. intros [H|(_ & H & _)]; [done|].
    by apply elem_of_nil in H.
  - rewrite add_lines_cons, IH. rewrite elem_of_cons.
    destruct (dict_contains d l) eqn:Hc.
    + apply dict_contains_keys in Hc. split.
      * intros [H|(H1 & H2 & H3)]; [by left|]. right. auto.
      * intros [H|(H1 & [->|H2] & H3)]; [by left|done|]. right. auto.
    + assert (l ∉ d.*1) as Hl.
      { intros H. apply dict_contains_keys in H. congruence. }
      rewrite fmap_app, !elem_of_app. simpl.
      rewrite !list_elem_of_singleton. split.
      * intros [[H|H]|(H1 & H2 & H3)]; [by left| |].
        -- injection H as -> ->. right. auto.
        -- right. split_and!; auto.
      * intros [H|(H1 & [->|H2] & ->)]; [by left; left|by left; right|].
        destruct (decide (k = l)) as [->|Hne]; [by left; right|].
        right. split_and!; auto. by intros [H|H].
Qed.

Lemma add_lines_keys (d : list (str * str)) (ls : list str) (fp k : str) :
  k ∈ (add_lines d ls fp).*1 <-> k ∈ d.*1 \/ k ∈ ls.
Proof.
  rewrite !list_elem_of_fmap. split.
  - intros [[k' v] [-> H]]. simpl. apply add_lines_elem in H as [H|(H1 & H2 & H3)].
    + left. by exists (k', v).
    + by right.
  - intros [[[k' v] [-> H]]|H].
    + exists (k', v). split; [done|]. apply add_lines_elem. by left.
    + destruct (decide (k ∈ d.*1)) as [Hin|Hn].
      * apply list_elem_of_fmap in Hin as [[k' v] [-> Hin]].
        exists (k', v). split; [done|]. apply add_lines_elem. by left.
      * exists (k, fp). split; [done|]. apply add_lines_elem. right. auto.
Qed.

Lemma add_lines_NoDup (d : list (str * str)) (ls : list str) (fp : str) :
  NoDup d.*1 -> NoDup (add_lines d ls fp).*1.
Proof.
  revert d. induction ls as [|l ls IH]; intros d Hd; [done|].
  rewrite add_lines_cons. apply IH.
  destruct (dict_contains d l) eqn:Hc; [done|].
  rewrite fmap_app. apply NoDup_app. split_and!; [done| |apply NoDup_singleton].
  intros x Hx Hx'. apply list_elem_of_singleton in Hx'. simpl in Hx'. subst x.
  apply dict_contains_keys in Hx. congruence.
Qed.

Lemma collect_lines_NoDup (w : World) (ps : list path) (d : list (str * str)) :
  NoDup d.*1 -> NoDup (collect_lines w d ps).*1.
Proof.
  revert d. induction ps as [|p ps IH]; intros d Hd; [done|].
  simpl. apply IH. by apply add_lines_NoDup.
Qed.

Lemma collect_lines_elem (w : World) (ps : list path) (d : list (str * str))
    (k v : str) :
  (k, v) ∈ collect_lines w d ps
  <-> (k, v) ∈ d
      \/ ((k ∉ d.*1)
          /\ exists pre f post,
               ps = pre ++ f :: post /\ v = relpath w f /\ k ∈ lines_of w f
               /\ forall g, g ∈ pre -> k ∉ lines_of w g).
Proof.
  revert d. induction ps as [|p ps IH]; intros d.
  - simpl. split; [by left|]. intros [H|(_ & pre & f & post & H & _)]; [done|].
    by destruct pre.
  - change (collect_lines w d (p :: ps))
      with (collect_lines w (add_lines d (lines_of w p) (relpath w p)) ps).
    rewrite IH, add_lines_elem, add_lines_keys. split.
    + intros [[H|(H1 & H2 & H3)]|(H1 & pre & f & post & -> & H3 & H4 & H5)].
      * by left.
      * right. split; [done|]. exists [], p, ps. split_and!; try done.
        intros g Hg. by apply elem_of_nil in Hg.
      * right. split; [tauto|]. exists (p :: pre), f, post.
        split_and!; try done. intros g [->|Hg]%elem_of_cons; [tauto|auto].
    + intros [H|(H1 & pre & f & post & H2 & H3 & H4 & H5)]; [by left; left|].
      destruct pre as [|p' pre]; simpl in H2; injection H2 as -> ->.
      * left. right. auto.
      * right. split.
        -- intros [H|H]; [done|]. apply (H5 p'); [apply elem_of_cons; by left|done].
        -- exists pre, f, post. split_and!; try done.
           intros g Hg. apply H5. apply elem_of_cons. by right.
Qed.

(** ** The steps after the traversal *)

Lemma slice_to_nat {A} (k : nat) (l : list A) : slice_to (Z.of_nat k) l = take k l.
Proof.
  unfold slice_to. rewrite slice_index_nat.
  destruct (decide (k <= length l)%nat).
  - by rewrite Nat.min_r.
  - rewrite Nat.min_l by lia. by rewrite firstn_all, take_ge by lia.
Qed.

Lemma slice_from_nat {A} (k : nat) (l : list A) : slice_from (Z.of_nat k) l = drop k l.
Proof.
  unfold slice_from. rewrite slice_index_nat.
  destruct (decide (k <= length l)%nat).
  - by rewrite Nat.min_r.
  - rewrite Nat.min_l by lia. by rewrite drop_all, drop_ge by lia.
Qed.

Lemma py_int_tenth (k : nat) : py_int (scale k (1 # 10)) = Z.of_nat (k / 10).
Proof. by rewrite (py_int_scale _ _ tenth_valid), sample_size_tenth. Qed.


Lemma generate_validation_questions_ok (w : World) (self : ProjectDataGenerator) :
  valid_ratio (validation_ratio self) ->
  exists selected,
    generate_validation_questions w self
    = Ret (map (line_location_entry (project_name self)) selected)
    /\ selected
       = sample_loop
           (sample_size (length (unique_lines self)) (validation_ratio self))
           (draws w) (unique_lines self)
    /\ length selected
       = sample_size (length (unique_lines self)) (validation_ratio self)
    /\ selected ⊆+ unique_lines self.
Proof.
  intros Hq. unfold generate_validation_questions.
  rewrite (py_int_scale _ _ Hq).
  destruct (random_sample_ok (draws w) (unique_lines self) _
              (sample_size_le (length (unique_lines self)) _ Hq))
    as (selected & -> & Hsel & Hlen & Hsub).
  exists selected. split_and!; try done. simpl. f_equal.
  apply map_ext. by intros [line file_path].
Qed.

Lemma ignored_same_spec (a b : ProjectDataGenerator) (p : path) :
  spec a = spec b -> ignored a p = ignored b p.
Proof. unfold ignored. by intros ->. Qed.

Lemma get_project_structure_same_spec (w : World) (a b : ProjectDataGenerator) :
  spec a = spec b -> get_project_structure w a = get_project_structure w b.
Proof. unfold get_project_structure, ignored. by intros ->. Qed.

(** The result of [generate_data], field by field. *)
Lemma generate_data_ok (w : World) (self : ProjectDataGenerator) :
  valid_ratio (validation_ratio self) ->
  exists selected g rep out,
    generate_data w self = Ret (g, rep, out)
    /\ generate_validation_questions w (scan w self)
       = Ret (map (line_location_entry (project_name self)) selected)
    /\ selected
       = sample_loop
           (sample_size (length (unique_lines (scan w self))) (validation_ratio self))
           (draws w) (unique_lines (scan w self))
    /\ length selected
       = sample_size (length (unique_lines (scan w self))) (validation_ratio self)
    /\ selected ⊆+ unique_lines (scan w self)
    /\ jsonl_data g
       = jsonl_data (scan w self)
         ++ take (length selected / 10)
              (map (line_location_entry (project_name self)) selected)
         ++ [generate_project_structure_question self (get_project_structure w self)]
    /\ validation_questions g
       = drop (length selected / 10)
           (map (line_location_entry (project_name self)) selected)
    /\ unique_lines g = unique_lines (scan w self)
    /\ token_count g = token_count (scan w self)
    /\ project_name g = project_name self
    /\ report_token_count rep = token_count g
    /\ report_project_name rep = project_name self
    /\ training_file rep = training_file_name self (now w)
    /\ validation_file rep = validation_file_name self (now w)
    /\ out = write_jsonl_files w g (now w).
Proof.
  intros Hq.
  destruct (absorb_all_fields w (scanned w self) self)
    as (Hspec & Hname & Hratio & _). cbv zeta in *.
  rewrite <- scan_kept in *.
  destruct (generate_validation_questions_ok w (scan w self)) as
    (selected & Hgen & Hsel & Hlen & Hsub); [by rewrite Hratio|].
  rewrite Hname in Hgen. rewrite Hratio in Hsel, Hlen.
  exists selected. unfold generate_data. rewrite Hgen.
  remember (scan w self) as s eqn:Hs. cbn [bind].
  do 3 eexists. split; [reflexivity|].
  cbn [jsonl_data validation_questions unique_lines token_count project_name
       set_jsonl_data set_validation_questions report_token_count
       report_project_name training_file validation_file].
  rewrite !py_int_tenth, !slice_to_nat, !slice_from_nat, length_map.
  unfold training_file_name, validation_file_name.
  cbn [jsonl_data validation_questions unique_lines token_count project_name
       set_jsonl_data set_validation_questions].
  rewrite Hname.
  split_and!; try done.
  rewrite <- app_assoc. do 3 f_equal.
  rewrite (get_project_structure_same_spec w _ self) by (by rewrite <- Hspec).
  unfold generate_project_structure_question.
  cbn [project_name set_jsonl_data set_validation_questions].
  by rewrite Hname.
Qed.

(** ** Entries *)

Lemma messages_inj (u a u' a' : str) : messages u a = messages u' a' -> u = u' /\ a = a'.
Proof. unfold messages. intros H. by injection H. Qed.

Lemma line_location_entry_line (name : str) (x y : str * str) :
  line_location_entry name x = line_location_entry name y -> fst x = fst y.
Proof.
  intros H. apply messages_inj in H as [H _].
  do 3 apply app_inv_head in H. by apply app_inv_tail in H.
Qed.

Lemma NoDup_map_via {A B C} (f : A -> B) (h : A -> C) (l : list A) :
  (forall x y, f x = f y -> h x = h y) -> NoDup (map h l) -> NoDup (map f l).
Proof.
  intros Hfh. induction l as [|x l IH]; simpl; intros Hnd; [constructor|].
  apply NoDup_cons in Hnd as [Hx Hnd]. apply NoDup_cons. split; [|by apply IH].
  intros Hin. apply Hx.
  change (f x ∈ f <$> l) in Hin. apply list_elem_of_fmap in Hin as (y & Hxy & Hy).
  apply Hfh in Hxy. rewrite Hxy.
  change (h y ∈ h <$> l). apply list_elem_of_fmap. by exists y.
Qed.

Lemma submseteq_NoDup {A} (l k : list A) : l ⊆+ k -> NoDup k -> NoDup l.
Proof.
  intros Hsub Hnd. apply submseteq_Permutation in Hsub as [k' Hk].
  rewrite Hk in Hnd. by apply NoDup_app in Hnd as [? _].
Qed.

Lemma scan_unique_lines (w : World) (self : ProjectDataGenerator) :
  unique_lines (scan w self) = collect_lines w (unique_lines self) (scanned w self).
Proof.
  rewrite scan_kept. apply (absorb_all_fields w (scanned w self) self).
Qed.

Lemma scan_jsonl_data (w : World) (self : ProjectDataGenerator) :
  jsonl_data (scan w self)
  = jsonl_data self ++ map (source_code_entry w (project_name self)) (scanned w self).
Proof.
  rewrite scan_kept. apply (absorb_all_fields w (scanned w self) self).
Qed.

Lemma scan_token_count (w : World) (self : ProjectDataGenerator) :
  token_count (scan w self)
  = (token_count self + sum_list (map (tokens_of w) (scanned w self)))%nat.
Proof.
  rewrite scan_kept. apply (absorb_all_fields w (scanned w self) self).
Qed.

Lemma sampled_entries_NoDup (w : World) (self : ProjectDataGenerator)
    (selected : list (str * str)) :
  NoDup (unique_lines self).*1 ->
  selected ⊆+ unique_lines (scan w self) ->
  NoDup (map (line_location_entry (project_name self)) selected).
Proof.
  intros Hnd Hsub. apply (NoDup_map_via _ fst).
  - apply line_location_entry_line.
  - change (NoDup selected.*1). eapply submseteq_NoDup.
    + by apply fmap_submseteq.
    + rewrite scan_unique_lines. by apply collect_lines_NoDup.
Qed.

(** ** The sample and its split *)



(** C9: the slice added to the training set and the validation set
    are the two sides of one split index of the sampled entries: put
    back together they are the sampled list, no entry is on both sides
    and every sampled entry is on one of them. *)
Theorem split_is_partition (w : World) (self : ProjectDataGenerator) :
  valid_ratio (validation_ratio self) ->
  NoDup (unique_lines self).*1 ->
  exists g rep out sampled additional,
    generate_data w self = Ret (g, rep, out)
    /\ generate_validation_questions w (scan w self) = Ret sampled
    /\ additional = take (sample_size (length sampled) (1 # 10)) sampled
    /\ validation_questions g = drop (sample_size (length sampled) (1 # 10)) sampled
    /\ jsonl_data g
       = jsonl_data (scan w self) ++ additional
         ++ [generate_project_structure_question self (get_project_structure w self)]
    /\ sampled = additional ++ validation_questions g
    /\ NoDup sampled
    /\ (forall e, e ∈ additional -> e ∉ validation_questions g)
    /\ (forall e, e ∈ sampled -> e ∈ additional \/ e ∈ validation_questions g).
Proof.
  intros Hq Hnd.
  destruct (generate_data_ok w self Hq)
    as (selected & g & rep & out & Hrun & Hgen & _ & Hlen & Hsub & Hdata & Hval & _).
  pose proof (sampled_entries_NoDup w self selected Hnd Hsub) as Hnd'.
  set (sampled := map (line_location_entry (project_name self)) selected) in *.
  exists g, rep, out, sampled, (take (sample_size (length sampled) (1 # 10)) sampled).
  assert (length sampled = length selected) as Hl by apply length_map.
  rewrite sample_size_tenth, Hl, Hval.
  assert (sampled = take (length selected / 10) sampled
                    ++ drop (length selected / 10) sampled) as Hsplit
    by (by rewrite take_drop).
  split_and!; try done.
  - rewrite Hsplit in Hnd'. apply NoDup_app in Hnd' as (_ & H & _). exact H.
  - intros e He. rewrite Hsplit in He. by apply elem_of_app in He.
Qed.

Lemma split_is_partition_witness :
  valid_ratio (1 # 1)
  /\ NoDup (unique_lines (demo_generator (1 # 1))).*1
  /\ exists g rep out (sampled : list pyobj),
       generate_data (plain_world demo_project) (demo_generator (1 # 1))
       = Ret (g, rep, out)
       /\ NoDup sampled
       /\ forall e, e ∈ sampled ->
            e ∈ take (sample_size (length sampled) (1 # 10)) sampled
            \/ e ∈ validation_questions g.
Proof.
  assert (valid_ratio (1 # 1)) as Hq by (split; unfold Qle; simpl; lia).
  assert (NoDup (unique_lines (demo_generator (1 # 1))).*1) as Hnd
    by (simpl; constructor).
  split; [exact Hq|]. split; [exact Hnd|].
  destruct (split_is_partition (plain_world demo_project)
              (demo_generator (1 # 1)) Hq Hnd)
    as (g & rep & out & sampled & additional & Hrun & _ & Hadd & _ & _ & _
        & Hnodup & _ & Hall).
  exists g, rep, out, sampled. rewrite <- Hadd.
  split; [exact Hrun|]. split; [exact Hnodup|exact Hall].
Defined.

(** C2: after the traversal the unique-line table holds every line at
    most once, and the path it gives for a line is the relative path of
    the first file, in traversal order, among the files that were not
    skipped, whose content has that line. *)
Theorem unique_lines_first_file (w : World) (name : str) (use_gitignore : bool)
    (ratio : Q) (s : option PathSpec) :
  let self := new_generator name use_gitignore ratio s in
  let table := unique_lines (scan w self) in
  NoDup table.*1
  /\ forall line file_path,
       (line, file_path) ∈ table
       <-> exists before f after,
             scanned w self = before ++ f :: after
             /\ file_path = relpath w f
             /\ line ∈ lines_of w f
             /\ forall g, g ∈ before -> line ∉ lines_of w g.
Proof.
  intros self table. subst table. rewrite scan_unique_lines.
  change (unique_lines self) with (@nil (list N * list N)).
  split.
  - apply collect_lines_NoDup. constructor.
  - intros line file_path. rewrite collect_lines_elem. split.
    + intros [H|(_ & H)]; [by apply elem_of_nil in H|done].
    + intros H. right. split; [|done]. simpl. apply not_elem_of_nil.
Qed.

(** ** The project structure *)

Lemma file_name_join (root : path) (file : str) : file_name (root ++ [file]) = file.
Proof. unfold file_name. by rewrite last_snoc. Qed.

Lemma structure_loop_files (w : World) (self : ProjectDataGenerator) (root : path)
    (fs : list str) (acc : list str) :
  fold_left
    (fun file_paths file =>
       if negb (endswith file (lit ".ts") || endswith file (lit ".tsx"))
       then file_paths
       else
         if ignored self (root ++ [file]) then file_paths
         else file_paths
              ++ [str_replace (os_sep (os w)) (lit "/") (relpath w (root ++ [file]))])
    fs acc
  = acc
    ++ structure_of w
         (filter (fun p => ignored self p = false)
            (map (fun file => root ++ [file]) fs)).
Proof.
  revert acc. induction fs as [|f fs IH]; intros acc.
  - simpl. by rewrite app_nil_r.
  - cbn [fold_left map]. rewrite IH. clear IH.
    unfold structure_of.
    change (endswith f (lit ".ts") || endswith f (lit ".tsx")) with (allow_listed f).
    destruct (ignored self (root ++ [f])) eqn:Hi.
    + rewrite (filter_cons_False _ (root ++ [f])) by (by rewrite Hi).
      by destruct (allow_listed f).
    + rewrite (filter_cons_True _ (root ++ [f])) by done.
      destruct (allow_listed f) eqn:Ha; simpl.
      * rewrite filter_cons_True by (by rewrite file_name_join).
        simpl. by rewrite <- app_assoc.
      * rewrite filter_cons_False; [done|]. rewrite file_name_join. congruence.
Qed.

Lemma structure_of_app (w : World) (ps qs : list path) :
  structure_of w (ps ++ qs) = structure_of w ps ++ structure_of w qs.
Proof. unfold structure_of. by rewrite filter_app, map_app. Qed.

Lemma structure_loop (w : World) (self : ProjectDataGenerator)
    (triples : list (path * list str * list str)) (acc : list str) :
  fold_left
    (fun file_paths '(root, _, files) =>
       fold_left
         (fun file_paths file =>
            if negb (endswith file (lit ".ts") || endswith file (lit ".tsx"))
            then file_paths
            else
              let file_path := root ++ [file] in
              if ignored self file_path then file_paths
              else
                let relative_file_path := relpath w file_path in
                file_paths
                ++ [str_replace (os_sep (os w)) (lit "/") relative_file_path])
         files file_paths)
    triples acc
  = acc
    ++ structure_of w
         (filter (fun p => ignored self p = false)
            (map file_path_of
               (flat_map
                  (fun '(root, _, files) => map (fun file => (root, file)) files)
                  triples))).
Proof.
  revert acc. induction triples as [|[[root dirs] fs] triples IH]; intros acc.
  - simpl. by rewrite app_nil_r.
  - cbn [fold_left flat_map]. cbv zeta. cbv zeta in IH.
    rewrite IH, structure_loop_files.
    rewrite map_app, filter_app, structure_of_app, map_map, <- app_assoc.
    reflexivity.
Qed.

Lemma get_project_structure_scanned (w : World) (self : ProjectDataGenerator) :
  get_project_structure w self = structure_of w (scanned w self).
Proof. apply (structure_loop w self _ []). Qed.

Lemma endswith_app (a suffix : str) : endswith (a ++ suffix) suffix = true.
Proof.
  unfold endswith, str_eqb. rewrite length_app.
  replace (length a + length suffix - length suffix)%nat with (length a) by lia.
  rewrite drop_app_length. apply andb_true_iff.
  split; apply bool_decide_eq_true; [done|lia].
Qed.

Lemma endswith_split (s suffix : str) :
  endswith s suffix = true -> exists a, s = a ++ suffix.
Proof.
  unfold endswith, str_eqb. intros [H _]%andb_true_iff.
  apply bool_decide_eq_true in H.
  exists (take (length s - length suffix) s).
  rewrite <- H at 2. by rewrite take_drop.
Qed.

Lemma str_join_last (sep : str) (root : path) (file : str) :
  exists a, str_join sep (root ++ [file]) = a ++ file.
Proof.
  induction root as [|c root [a IH]].
  - by exists [].
  - cbn [app str_join]. destruct (root ++ [file]) eqn:E.
    + by destruct root.
    + rewrite IH. exists (c ++ sep ++ a). by rewrite <- !app_assoc.
Qed.

Lemma str_replace_app (old : N) (new a b : str) :
  str_replace old new (a ++ b) = str_replace old new a ++ str_replace old new b.
Proof. apply flat_map_app. Qed.

Lemma normalized_endswith (w : World) (root : path) (file ext : str) :
  str_replace (os_sep (os w)) (lit "/") ext = ext ->
  endswith file ext = true ->
  endswith (normalized w (root ++ [file])) ext = true.
Proof.
  intros Hext [a ->]%endswith_split. unfold normalized, relpath.
  destruct (str_join_last [os_sep (os w)] root (a ++ ext)) as [b ->].
  rewrite !str_replace_app, Hext, !app_assoc. apply endswith_app.
Qed.

Lemma str_replace_no_sep (old : N) (s : str) :
  old <> 47 -> old ∉ str_replace old (lit "/") s.
Proof.
  intros Hne. induction s as [|c s IH]; [apply not_elem_of_nil|].
  unfold str_replace. cbn [flat_map]. fold (str_replace old (lit "/") s).
  destruct (N.eqb_spec c old) as [->|Hc].
  - intros [H|H]%elem_of_app; [|done].
    apply list_elem_of_singleton in H. done.
  - intros [H|H]%elem_of_app; [|done].
    apply list_elem_of_singleton in H. done.
Qed.

Lemma scanned_walked (w : World) (self : ProjectDataGenerator) (p : path) :
  p ∈ scanned w self
  <-> ignored self p = false
      /\ exists root file, p = root ++ [file] /\ (root, file) ∈ walked_files w.
Proof.
  unfold scanned. rewrite list_elem_of_filter.
  change (map file_path_of (walked_files w)) with (file_path_of <$> walked_files w).
  rewrite list_elem_of_fmap. split.
  - intros [Hi [[root file] [-> Hin]]]. split; [done|]. by exists root, file.
  - intros [Hi (root & file & -> & Hin)]. split; [done|]. by exists (root, file).
Qed.

Lemma extension_kept (w : World) (ext : str) :
  ext = lit ".ts" \/ ext = lit ".tsx" ->
  str_replace (os_sep (os w)) (lit "/") ext = ext.
Proof. intros [-> | ->]; by destruct (os w). Qed.

(** C8: the project structure lists exactly the files of the
    traversal that are not ignored and whose names end in [.ts] or
    [.tsx], each by its relative path with the separator of the
    platform replaced by a forward slash; it is the array of the
    structure entry, the last entry of the training set. *)
Theorem project_structure_listing (w : World) (self : ProjectDataGenerator) :
  valid_ratio (validation_ratio self) ->
  let listing := get_project_structure w self in
  listing
  = map (normalized w)
      (filter (fun p => allow_listed (file_name p) = true) (scanned w self))
  /\ (forall entry,
        entry ∈ listing <->
        exists root file,
          (root, file) ∈ walked_files w
          /\ ignored self (root ++ [file]) = false
          /\ (endswith file (lit ".ts") = true \/ endswith file (lit ".tsx") = true)
          /\ entry
             = str_replace (os_sep (os w)) (lit "/")
                 (str_join [os_sep (os w)] (root ++ [file])))
  /\ (forall entry,
        entry ∈ listing ->
        (endswith entry (lit ".ts") = true \/ endswith entry (lit ".tsx") = true)
        /\ (os_sep (os w) <> 47 -> os_sep (os w) ∉ entry))
  /\ exists g rep out,
       generate_data w self = Ret (g, rep, out)
       /\ last (jsonl_data g)
          = Some (generate_project_structure_question self listing)
       /\ exists question,
            generate_project_structure_question self listing
            = messages question
                (json_dumps
                   (PyDict
                      [(lit "project_structure", PyList (map PyStr listing))])).
Proof.
  intros Hq listing.
  assert (forall entry,
            entry ∈ listing <->
            exists root file,
              (root, file) ∈ walked_files w
              /\ ignored self (root ++ [file]) = false
              /\ (endswith file (lit ".ts") = true
                  \/ endswith file (lit ".tsx") = true)
              /\ entry
                 = str_replace (os_sep (os w)) (lit "/")
                     (str_join [os_sep (os w)] (root ++ [file]))) as Hchar.
  { intros entry. subst listing. rewrite get_project_structure_scanned.
    unfold structure_of.
    change (map (normalized w) ?l) with (normalized w <$> l).
    rewrite list_elem_of_fmap. split.
    - intros (p & -> & [Ha Hp]%list_elem_of_filter).
      apply scanned_walked in Hp as (Hi & root & file & -> & Hin).
      rewrite file_name_join in Ha. exists root, file.
      split_and!; try done. by apply orb_true_iff in Ha.
    - intros (root & file & Hin & Hi & Hext & ->).
      exists (root ++ [file]). split; [done|].
      apply list_elem_of_filter. split.
      + rewrite file_name_join. by apply orb_true_iff.
      + apply scanned_walked. split; [done|]. by exists root, file. }
  split_and!.
  - subst listing. by rewrite get_project_structure_scanned.
  - exact Hchar.
  - intros entry (root & file & _ & _ & Hext & ->)%Hchar. split.
    + destruct Hext as [H|H]; [left|right];
        (apply (normalized_endswith w root file); [apply extension_kept; auto|done]).
    + intros Hsep. by apply str_replace_no_sep.
  - destruct (generate_data_ok w self Hq)
      as (selected & g & rep & out & Hrun & _ & _ & _ & _ & Hdata & _).
    exists g, rep, out. split; [done|]. split.
    + by rewrite Hdata, !app_assoc, last_snoc.
    + unfold generate_project_structure_question. by eexists.
Qed.

Lemma project_structure_listing_witness :
  valid_ratio (2 # 5)
  /\ get_project_structure (plain_world demo_project) (demo_generator (2 # 5))
     = [lit "main.ts"; lit "broken.tsx"; lit "empty.ts"; lit "src/app.tsx"]
  /\ forall entry,
       entry ∈ get_project_structure (plain_world demo_project)
                 (demo_generator (2 # 5)) ->
       endswith entry (lit ".ts") = true \/ endswith entry (lit ".tsx") = true.
Proof.
  assert (valid_ratio (2 # 5)) as Hq by (split; unfold Qle; simpl; lia).
  split; [exact Hq|]. split; [vm_compute; reflexivity|].
  intros entry Hin.
  destruct (project_structure_listing (plain_world demo_project)
              (demo_generator (2 # 5)) Hq) as (_ & _ & Hends & _).
  exact (proj1 (Hends entry Hin)).
Defined.

(** ** Ignored files *)

Lemma match_file_nil (p : path) : match_file [] p = false.
Proof. reflexivity. Qed.

Lemma ignored_iff (self : ProjectDataGenerator) (p : path) :
  ignored self p = true
  <-> exists patterns, spec self = Some patterns /\ match_file patterns p = true.
Proof.
  unfold ignored. destruct (spec self) as [patterns|].
  - split.
    + intros [_ H]%andb_true_iff. by exists patterns.
    + intros (? & [= <-] & H). destruct patterns; [done|]. by rewrite H.
  - split; [done|]. by intros (? & ? & _).
Qed.

Lemma absorb_same (w w' : World) (self : ProjectDataGenerator) (p : path) :
  os w' = os w -> read_text w' p = read_text w p ->
  absorb w' self p = absorb w self p.
Proof.
  intros Hos Hread. unfold absorb, get_file_content, relpath.
  by rewrite Hos, Hread.
Qed.

Lemma fold_absorb_same (w w' : World) (ps : list path) (self : ProjectDataGenerator) :
  os w' = os w -> (forall p, p ∈ ps -> read_text w' p = read_text w p) ->
  fold_left (absorb w') ps self = fold_left (absorb w) ps self.
Proof.
  intros Hos. revert self. induction ps as [|p ps IH]; intros self Hread; [done|].
  simpl. rewrite (absorb_same w w') by (auto; apply Hread, elem_of_cons; by left).
  apply IH. intros q Hq. apply Hread, elem_of_cons. by right.
Qed.

Lemma scanned_same_spec (w : World) (a b : ProjectDataGenerator) :
  spec a = spec b -> scanned w a = scanned w b.
Proof. unfold scanned, ignored. by intros ->. Qed.

Lemma structure_of_same (w w' : World) (ps : list path) :
  os w' = os w -> structure_of w' ps = structure_of w ps.
Proof. intros Hos. unfold structure_of, normalized, relpath. by rewrite Hos. Qed.

Lemma generate_data_same (w w' : World) (self : ProjectDataGenerator) :
  same_scanned_files self w w' -> generate_data w' self = generate_data w self.
Proof.
  intros (Hos & Hdraws & Hnow & Hcw & Hsc & Hread).
  assert (scan w' self = scan w self) as Hscan.
  { rewrite !scan_kept, Hsc. by apply fold_absorb_same. }
  assert (forall s, spec s = spec self ->
            get_project_structure w' s = get_project_structure w s) as Hstruct.
  { intros s Hs. rewrite !get_project_structure_scanned.
    rewrite (scanned_same_spec w' s self), (scanned_same_spec w s self), Hsc by done.
    by apply structure_of_same. }
  assert (spec (scan w self) = spec self) as Hspec.
  { rewrite scan_kept. apply (absorb_all_fields w (scanned w self) self). }
  unfold generate_data. rewrite Hscan.
  unfold generate_validation_questions. rewrite Hdraws.
  destruct (random_sample _ _ _) as [selected|e]; [|done].
  cbn [bind]. cbv zeta. rewrite Hnow, Hstruct by done.
  unfold write_jsonl_files, write_jsonl_file. by rewrite !Hcw.
Qed.

(** C4: a file whose path the active ignore specification matches is
    skipped by the loop without any change of state; the entries, the
    token count, the unique-line table and the project structure are
    built from the other files alone, and the whole result of the run
    is the same in every environment that has the same files apart
    from the ignored ones. *)
Theorem ignored_file_leaves_no_trace (w : World) (self : ProjectDataGenerator)
    (patterns : PathSpec) (root : path) (file : str) :
  spec self = Some patterns ->
  match_file patterns (root ++ [file]) = true ->
  visit w root self file = self
  /\ ((root ++ [file]) ∉ scanned w self)
  /\ jsonl_data (scan w self)
     = jsonl_data self
       ++ map (source_code_entry w (project_name self)) (scanned w self)
  /\ token_count (scan w self)
     = (token_count self + sum_list (map (tokens_of w) (scanned w self)))%nat
  /\ unique_lines (scan w self)
     = collect_lines w (unique_lines self) (scanned w self)
  /\ (forall line file_path,
        (line, file_path) ∈ unique_lines (scan w self) ->
        (line, file_path) ∈ unique_lines self
        \/ exists f, f ∈ scanned w self /\ file_path = relpath w f
                     /\ line ∈ lines_of w f)
  /\ get_project_structure w self = structure_of w (scanned w self)
  /\ forall w', same_scanned_files self w w' ->
                generate_data w' self = generate_data w self.
Proof.
  intros Hspec Hmatch.
  assert (ignored self (root ++ [file]) = true) as Hi
    by (apply ignored_iff; eauto).
  split_and!.
  - rewrite visit_visit_path. unfold visit_path. by rewrite Hi.
  - intros [H _]%scanned_walked. congruence.
  - apply scan_jsonl_data.
  - apply scan_token_count.
  - apply scan_unique_lines.
  - intros line file_path Hin. rewrite scan_unique_lines in Hin.
    apply collect_lines_elem in Hin
      as [Hin|(_ & before & f & after & Hsplit & -> & Hline & _)]; [by left|].
    right. exists f. split_and!; try done.
    rewrite Hsplit. apply elem_of_app. right. apply elem_of_cons. by left.
  - apply get_project_structure_scanned.
  - intros w'. apply generate_data_same.
Qed.

Lemma ignored_file_leaves_no_trace_witness :
  spec (demo_generator (1 # 1)) = Some [dist_pattern]
  /\ match_file [dist_pattern] ([lit "dist"] ++ [lit "out.ts"]) = true
  /\ same_scanned_files (demo_generator (1 # 1)) (plain_world demo_project)
       (plain_world demo_project_rebuilt)
  /\ generate_data (plain_world demo_project_rebuilt) (demo_generator (1 # 1))
     = generate_data (plain_world demo_project) (demo_generator (1 # 1)).
Proof.
  assert (same_scanned_files (demo_generator (1 # 1)) (plain_world demo_project)
            (plain_world demo_project_rebuilt)) as Hsame.
  { repeat split.
    intros p Hp. vm_compute in Hp.
    repeat (apply elem_of_cons in Hp as [->|Hp]; [reflexivity|]).
    by apply elem_of_nil in Hp. }
  split; [reflexivity|]. split; [reflexivity|]. split; [exact Hsame|].
  destruct (ignored_file_leaves_no_trace (plain_world demo_project)
              (demo_generator (1 # 1)) [dist_pattern] [lit "dist"] (lit "out.ts")
              eq_refl eq_refl) as (_ & _ & _ & _ & _ & _ & _ & Hframe).
  exact (Hframe _ Hsame).
Defined.

(** C7: when reading a file fails its content is the empty string;
    the run still ends normally, the training set starts with the
    source-code entries of all the files that were not skipped, in
    traversal order, and the entry of the unreadable file is among them
    with an empty assistant turn. *)
Theorem unreadable_file_gets_empty_entry (w : World) (self : ProjectDataGenerator)
    (p : path) :
  valid_ratio (validation_ratio self) ->
  p ∈ scanned w self ->
  read_text w p = None ->
  get_file_content w p = []
  /\ exists g rep out rest,
       generate_data w self = Ret (g, rep, out)
       /\ jsonl_data g
          = jsonl_data self
            ++ map (source_code_entry w (project_name self)) (scanned w self)
            ++ rest
       /\ messages
            (lit "What is the source code of " ++ relpath w p ++ lit " for the "
             ++ project_name self ++ lit " project?") []
          ∈ jsonl_data g.
Proof.
  intros Hq Hp Hread.
  assert (get_file_content w p = []) as Hempty
    by (unfold get_file_content; by rewrite Hread).
  split; [done|].
  destruct (generate_data_ok w self Hq)
    as (selected & g & rep & out & Hrun & _ & _ & _ & _ & Hdata & _).
  rewrite scan_jsonl_data, <- app_assoc in Hdata.
  exists g, rep, out. eexists. split; [done|]. split; [exact Hdata|].
  rewrite Hdata. apply elem_of_app. right. apply elem_of_app. left.
  change (map ?f ?l) with (f <$> l). apply list_elem_of_fmap.
  exists p. split; [|done]. unfold source_code_entry. by rewrite Hempty.
Qed.

Lemma unreadable_file_gets_empty_entry_witness :
  valid_ratio (2 # 5)
  /\ [lit "broken.tsx"] ∈ scanned (plain_world demo_project) (demo_generator (2 # 5))
  /\ read_text (plain_world demo_project) [lit "broken.tsx"] = None
  /\ exists g rep out,
       generate_data (plain_world demo_project) (demo_generator (2 # 5))
       = Ret (g, rep, out)
       /\ messages (lit "What is the source code of broken.tsx for the demo project?") []
          ∈ jsonl_data g.
Proof.
  assert (valid_ratio (2 # 5)) as Hq by (split; unfold Qle; simpl; lia).
  assert ([lit "broken.tsx"]
          ∈ scanned (plain_world demo_project) (demo_generator (2 # 5))) as Hp.
  { vm_compute. do 2 apply list_elem_of_further. apply list_elem_of_here. }
  split; [exact Hq|]. split; [exact Hp|]. split; [reflexivity|].
  destruct (unreadable_file_gets_empty_entry (plain_world demo_project)
              (demo_generator (2 # 5)) [lit "broken.tsx"] Hq Hp eq_refl)
    as (_ & g & rep & out & rest & Hrun & _ & Hin).
  exists g, rep, out. split; [exact Hrun|exact Hin].
Defined.

(** ** Blank lines and empty files *)

(** Two line feeds in a row leave an empty line behind the first line. *)
Lemma splitlines_blank (a b : str) :
  exists l ls, splitlines (a ++ LF :: LF :: b) = l :: ls /\ [] ∈ ls.
Proof.
  remember (length a) as n eqn:Hn. revert a Hn.
  induction (lt_wf n) as [n _ IH]. intros a ->.
  destruct a as [|c a].
  - exists [], ([] :: splitlines b). split; [done|]. apply list_elem_of_here.
  - cbn [app splitlines].
    destruct (IH (length a) (Nat.lt_succ_diag_r _) a eq_refl) as (l & ls & Hl & Hin).
    destruct (is_linebreak c).
    + destruct (c =? CR).
      * destruct a as [|c' a'].
        -- exists [], ([] :: splitlines b). split; [done|]. apply list_elem_of_here.
        -- cbn [app]. destruct (c' =? LF).
           ++ destruct (IH (length a')) with (a := a') as (l' & ls' & Hl' & Hin');
                [simpl; lia|done|].
              exists [], (l' :: ls'). rewrite Hl'. split; [done|].
              by apply list_elem_of_further.
           ++ exists [], (l :: ls). cbn [app] in Hl. rewrite Hl. split; [done|].
              by apply list_elem_of_further.
      * exists [], (l :: ls). rewrite Hl. split; [done|].
        by apply list_elem_of_further.
    + rewrite Hl. by exists (c :: l), ls.
Qed.

Lemma blank_line_in_text (a b : str) : [] ∈ splitlines (a ++ LF :: LF :: b).
Proof.
  destruct (splitlines_blank a b) as (l & ls & -> & Hin).
  by apply list_elem_of_further.
Qed.

Lemma first_with {A} (P : A -> Prop) `{forall x, Decision (P x)} (l : list A) (x : A) :
  x ∈ l -> P x ->
  exists before f after,
    l = before ++ f :: after /\ P f /\ forall g, g ∈ before -> ~ P g.
Proof.
  induction l as [|a l IH]; intros Hin HP; [by apply elem_of_nil in Hin|].
  destruct (decide (P a)) as [Ha|Ha].
  - exists [], a, l. split_and!; try done. intros g Hg. by apply elem_of_nil in Hg.
  - apply elem_of_cons in Hin as [->|Hin]; [done|].
    destruct (IH Hin HP) as (before & f & after & -> & Hf & Hbefore).
    exists (a :: before), f, after. split_and!; try done.
    intros g [->|Hg]%elem_of_cons; auto.
Qed.

Lemma scan_with_draws (w : World) (rnd : list nat) (self : ProjectDataGenerator) :
  scan (with_draws w rnd) self = scan w self.
Proof. reflexivity. Qed.

(** C10: when the content of a scanned file has a blank line, the
    empty string is a key of the unique-line table, with the path of
    the first such file; whenever at least one entry is sampled there
    are draws of the random generator for which its entry, quoting [''],
    is among the sampled ones; two line feeds in a row always make such
    a blank line. A file with empty content adds no key to the table
    and no token to the count. *)
Theorem blank_line_is_a_key (w : World) (name : str) (use_gitignore : bool)
    (ratio : Q) (s : option PathSpec) (p : path) :
  let self := new_generator name use_gitignore ratio s in
  p ∈ scanned w self ->
  [] ∈ lines_of w p ->
  (exists before f after,
     scanned w self = before ++ f :: after
     /\ [] ∈ lines_of w f
     /\ (forall g, g ∈ before -> [] ∉ lines_of w g)
     /\ ([], relpath w f) ∈ unique_lines (scan w self)
     /\ (valid_ratio ratio ->
         (1 <= sample_size (length (unique_lines (scan w self))) ratio)%nat ->
         exists rnd g rep out,
           generate_data (with_draws w rnd) self = Ret (g, rep, out)
           /\ (messages
                 (lit "In the " ++ name
                  ++ lit " project, where can I find this line of code: '"
                  ++ [] ++ lit "'?")
                 (json_dumps (PyDict [(lit "file_path", PyStr (relpath w f))]))
               ∈ jsonl_data g ++ validation_questions g)))
  /\ (forall before after : str, [] ∈ splitlines (before ++ LF :: LF :: after))
  /\ splitlines [] = []
  /\ tokenize [] = []
  /\ forall (g : ProjectDataGenerator) (q : path),
       ignored g q = false -> get_file_content w q = [] ->
       unique_lines (visit_path w g q) = unique_lines g
       /\ token_count (visit_path w g q) = token_count g.
Proof.
  intros self Hp Hblank. split_and!; try done.
  - destruct (first_with (fun g => [] ∈ lines_of w g) (scanned w self) p Hp Hblank)
      as (before & f & after & Hsplit & Hf & Hbefore).
    exists before, f, after.
    assert (([], relpath w f) ∈ unique_lines (scan w self)) as Hkey.
    { rewrite scan_unique_lines. apply collect_lines_elem. right.
      split; [apply not_elem_of_nil|]. by exists before, f, after. }
    split_and!; try done.
    intros Hq Hsize.
    apply list_elem_of_lookup in Hkey as [j Hj].
    destruct (generate_data_ok (with_draws w [j]) self Hq)
      as (selected & g & rep & out & Hrun & _ & Hsel & _ & _ & Hdata & Hval & _).
    rewrite scan_with_draws in Hsel, Hdata.
    exists [j], g, rep, out. split; [done|].
    assert (line_location_entry name ([], relpath w f)
            ∈ map (line_location_entry name) selected) as Hin.
    { change (map ?f ?l) with (f <$> l). apply list_elem_of_fmap.
      exists ([], relpath w f). split; [done|].
      rewrite Hsel. simpl validation_ratio.
      destruct (sample_size _ ratio) as [|k]; [lia|].
      by apply sample_loop_first. }
    rewrite <- (take_drop (length selected / 10)) in Hin.
    apply elem_of_app in Hin as [Hin|Hin].
    + rewrite Hdata. apply elem_of_app. left. apply elem_of_app. right.
      apply elem_of_app. by left.
    + rewrite Hval. apply elem_of_app. by right.
  - apply blank_line_in_text.
  - intros g q Hi Hempty. unfold visit_path. rewrite Hi.
    unfold absorb. rewrite Hempty. simpl. split; [done|lia].
Qed.

Lemma blank_line_is_a_key_witness :
  [lit "main.ts"] ∈ scanned (plain_world demo_project) (demo_generator (2 # 5))
  /\ [] ∈ lines_of (plain_world demo_project) [lit "main.ts"]
  /\ (exists f rnd g rep out,
        ([], relpath (plain_world demo_project) f)
        ∈ unique_lines (scan (plain_world demo_project) (demo_generator (2 # 5)))
        /\ generate_data (with_draws (plain_world demo_project) rnd)
             (demo_generator (2 # 5)) = Ret (g, rep, out)
        /\ messages
             (lit "In the " ++ lit "demo"
              ++ lit " project, where can I find this line of code: '"
              ++ [] ++ lit "'?")
             (json_dumps
                (PyDict [(lit "file_path",
                          PyStr (relpath (plain_world demo_project) f))]))
           ∈ jsonl_data g ++ validation_questions g)
  /\ get_file_content (plain_world demo_project) [lit "empty.ts"] = []
  /\ unique_lines (visit_path (plain_world demo_project) (demo_generator (2 # 5))
                     [lit "empty.ts"])
     = unique_lines (demo_generator (2 # 5)).
Proof.
  assert ([lit "main.ts"]
          ∈ scanned (plain_world demo_project) (demo_generator (2 # 5))) as Hp
    by (vm_compute; apply list_elem_of_here).
  assert ([] ∈ lines_of (plain_world demo_project) [lit "main.ts"]) as Hblank
    by (vm_compute; apply list_elem_of_further, list_elem_of_here).
  assert (valid_ratio (2 # 5)) as Hq by (split; unfold Qle; simpl; lia).
  split; [exact Hp|]. split; [exact Hblank|].
  destruct (blank_line_is_a_key (plain_world demo_project) (lit "demo") true (2 # 5)
              (Some [dist_pattern]) [lit "main.ts"] Hp Hblank)
    as ((before & f & after & _ & _ & _ & Hkey & Hsample) & _ & _ & _ & Hempty).
  split; [|split; [reflexivity|]].
  - destruct (Hsample Hq) as (rnd & g & rep & out & Hrun & Hin).
    { vm_compute. lia. }
    exists f, rnd, g, rep, out. split; [exact Hkey|]. split; [exact Hrun|exact Hin].
  - exact (proj1 (Hempty (demo_generator (2 # 5)) [lit "empty.ts"] eq_refl eq_refl)).
Defined.

(** ** Reading back what [json.dumps] writes *)

Lemma hexval_hexdigit (d : N) : d < 16 -> hexval (hexdigit d) = Some d.
Proof.
  intros H.
  assert (d = 0 \/ d = 1 \/ d = 2 \/ d = 3 \/ d = 4 \/ d = 5 \/ d = 6 \/ d = 7
          \/ d = 8 \/ d = 9 \/ d = 10 \/ d = 11 \/ d = 12 \/ d = 13 \/ d = 14
          \/ d = 15) as Hd by lia.
  repeat (destruct Hd as [->|Hd]; [reflexivity|]). by subst.
Qed.

Lemma decode_hex4 (x : N) :
  x < 65536 ->
  decode_uXXXX (hexdigit (x / 4096 mod 16)) (hexdigit (x / 256 mod 16))
    (hexdigit (x / 16 mod 16)) (hexdigit (x mod 16)) = Some x.
Proof.
  intros Hx. unfold decode_uXXXX.
  rewrite !hexval_hexdigit by (apply N.mod_lt; lia).
  f_equal.
  pose proof (N.div_mod x 16). pose proof (N.mod_lt x 16).
  pose proof (N.div_mod (x / 16) 16). pose proof (N.mod_lt (x / 16) 16).
  pose proof (N.div_mod (x / 16 / 16) 16). pose proof (N.mod_lt (x / 16 / 16) 16).
  assert (x / 256 = x / 16 / 16) as E1 by (by rewrite N.Div0.div_div).
  assert (x / 4096 = x / 16 / 16 / 16) as E2 by (by rewrite !N.Div0.div_div).
  assert (x / 16 / 16 / 16 < 16).
  { rewrite !N.Div0.div_div. apply N.Div0.div_lt_upper_bound. simpl. lia. }
  rewrite E1, E2. rewrite (N.mod_small (x / 16 / 16 / 16)) by done. lia.
Qed.

Lemma lor_low_bits (a v : N) : v < 1024 -> N.lor (a * 1024) v = a * 1024 + v.
Proof.
  intros Hv.
  assert (N.land (a * 1024) v = 0) as Hland.
  { apply N.bits_inj. intros i. rewrite N.land_spec, N.bits_0.
    destruct (N.lt_ge_cases i 10) as [Hi|Hi].
    - change 1024 with (2 ^ 10). by rewrite N.mul_pow2_bits_low.
    - rewrite <- (N.mod_small v 1024) by done. change 1024 with (2 ^ 10).
      rewrite N.mod_pow2_bits_high by done. apply andb_false_r. }
  by rewrite <- N.lxor_lor, <- N.add_nocarry_lxor.
Qed.

Lemma land_1023 (x : N) : N.land x 1023 < 1024.
Proof.
  change 1023 with (N.ones 10). rewrite N.land_ones.
  apply N.mod_lt. discriminate.
Qed.

Lemma high_half (n : N) :
  let hi := N.lor 55296 (N.land (N.shiftr n 10) 1023) in
  hi < 65536 /\ is_high_surrogate hi = true.
Proof.
  intros hi. subst hi. change 55296 with (54 * 1024).
  pose proof (land_1023 (N.shiftr n 10)).
  rewrite lor_low_bits by done. unfold is_high_surrogate.
  split; [lia|]. apply andb_true_iff. split; apply N.leb_le; lia.
Qed.

Lemma low_half (n : N) :
  let lo := N.lor 56320 (N.land n 1023) in
  lo < 65536 /\ is_low_surrogate lo = true.
Proof.
  intros lo. subst lo. change 56320 with (55 * 1024).
  pose proof (land_1023 n).
  rewrite lor_low_bits by done. unfold is_low_surrogate.
  split; [lia|]. apply andb_true_iff. split; apply N.leb_le; lia.
Qed.

Lemma high_not_low (x : N) : is_high_surrogate x = true -> is_low_surrogate x = false.
Proof.
  unfold is_high_surrogate, is_low_surrogate.
  intros [_ H]%andb_true_iff. apply N.leb_le in H.
  apply andb_false_iff. left. apply N.leb_gt. lia.
Qed.

(** The four shapes of the escape of a character. *)
Lemma escape_char_cases (c : N) :
  (exists e x, escape_char c = [backslash; e] /\ e <> 117
               /\ short_escape e = Some x)
  \/ (escape_char c = [c] /\ 32 <= c /\ c <= 126 /\ c <> dquote /\ c <> backslash)
  \/ (escape_char c = u_escape c /\ c < 65536)
  \/ (exists hi lo, escape_char c = u_escape hi ++ u_escape lo
                    /\ hi < 65536 /\ lo < 65536
                    /\ is_high_surrogate hi = true /\ is_low_surrogate lo = true).
Proof.
  unfold escape_char.
  destruct (N.eqb_spec c dquote) as [->|?]; [left; by exists dquote, dquote|].
  destruct (N.eqb_spec c backslash) as [->|?]; [left; by exists backslash, backslash|].
  destruct (N.eqb_spec c 10) as [->|?]; [left; by exists 110, 10|].
  destruct (N.eqb_spec c 13) as [->|?]; [left; by exists 114, 13|].
  destruct (N.eqb_spec c 9) as [->|?]; [left; by exists 116, 9|].
  destruct (N.eqb_spec c 8) as [->|?]; [left; by exists 98, 8|].
  destruct (N.eqb_spec c 12) as [->|?]; [left; by exists 102, 12|].
  destruct (N.leb_spec 32 c); destruct (N.leb_spec c 126); simpl;
    try (right; left; split_and!; done).
  all: destruct (N.ltb_spec c 65536); [right; right; left; by split|].
  all: right; right; right.
  all: destruct (high_half (c - 65536)) as [? ?];
       destruct (low_half (c - 65536)) as [? ?].
  all: eexists _, _; split; [reflexivity|]; split_and!; done.
Qed.

Lemma scan_literal (c : N) (r : str) :
  32 <= c -> c <> dquote -> c <> backslash ->
  scanstring (c :: r) = cons_scanned c (scanstring r).
Proof.
  intros H32 Hq Hb. cbn [scanstring].
  destruct (N.eqb_spec c dquote); [done|].
  destruct (N.eqb_spec c backslash); [done|].
  destruct (N.ltb_spec c 32); [lia|done].
Qed.

Lemma scan_short (e x : N) (r : str) :
  e <> 117 -> short_escape e = Some x ->
  scanstring (backslash :: e :: r) = cons_scanned x (scanstring r).
Proof.
  intros He Hx. cbn [scanstring]. change (backslash =? dquote) with false.
  change (backslash =? backslash) with true. cbv iota.
  destruct (N.eqb_spec e 117); [done|]. by rewrite Hx.
Qed.

(** What follows a high surrogate decides whether a pair is joined. *)
Lemma scan_u_escape (x : N) (r : str) :
  x < 65536 ->
  scanstring (u_escape x ++ r)
  = if is_high_surrogate x then
      match r with
      | b :: u :: g1 :: g2 :: g3 :: g4 :: r3 =>
          if (b =? backslash) && (u =? 117) then
            match decode_uXXXX g1 g2 g3 g4 with
            | None => None
            | Some uni2 =>
                if is_low_surrogate uni2
                then cons_scanned (join_surrogates x uni2) (scanstring r3)
                else cons_scanned x (scanstring r)
            end
          else cons_scanned x (scanstring r)
      | _ => cons_scanned x (scanstring r)
      end
    else cons_scanned x (scanstring r).
Proof.
  intros Hx. unfold u_escape, hex4. cbn [app scanstring].
  change (backslash =? dquote) with false.
  change (backslash =? backslash) with true.
  change (117 =? 117) with true. cbv iota.
  rewrite decode_hex4 by done.
  destruct (is_high_surrogate x); [|done].
  by destruct r as [|b [|u [|g1 [|g2 [|g3 [|g4 r3]]]]]].
Qed.

Lemma scan_u_plain (x : N) (r : str) :
  x < 65536 ->
  (forall r', r <> backslash :: 117 :: r') ->
  scanstring (u_escape x ++ r) = cons_scanned x (scanstring r).
Proof.
  intros Hx Hr. rewrite scan_u_escape by done.
  destruct (is_high_surrogate x); [|done].
  destruct r as [|b [|u [|g1 [|g2 [|g3 [|g4 r3]]]]]]; try done.
  destruct (N.eqb_spec b backslash) as [->|?]; [|done].
  destruct (N.eqb_spec u 117) as [->|?]; [|done].
  by destruct (Hr (g1 :: g2 :: g3 :: g4 :: r3)).
Qed.

Lemma scan_u_pair (x y : N) (r : str) :
  x < 65536 -> y < 65536 ->
  scanstring (u_escape x ++ u_escape y ++ r)
  = if is_high_surrogate x && is_low_surrogate y
    then cons_scanned (join_surrogates x y) (scanstring r)
    else cons_scanned x (scanstring (u_escape y ++ r)).
Proof.
  intros Hx Hy. rewrite scan_u_escape by done.
  destruct (is_high_surrogate x); [|done].
  unfold u_escape at 1, hex4. cbn [app].
  change (backslash =? backslash) with true.
  change (117 =? 117) with true. cbn [andb].
  rewrite decode_hex4 by done.
  by destruct (is_low_surrogate y).
Qed.

(** One escape is consumed, or a lone high surrogate together with the
    lone low surrogate after it. *)
Lemma scan_escape_char (c : N) (s : str) :
  (exists x, forall rest,
     scanstring (escape_char c ++ flat_map escape_char s ++ dquote :: rest)
     = cons_scanned x (scanstring (flat_map escape_char s ++ dquote :: rest)))
  \/ (exists x c2 t,
        s = c2 :: t
        /\ forall rest,
             scanstring (escape_char c ++ flat_map escape_char s ++ dquote :: rest)
             = cons_scanned x (scanstring (flat_map escape_char t ++ dquote :: rest))).
Proof.
  destruct (escape_char_cases c)
    as [(e & x & -> & He & Hx)|[(-> & ? & ? & ? & ?)|[(-> & Hc)|
        (hi & lo & -> & Hhi & Hlo & Hh & Hl)]]].
  - left. exists x. intros rest. by apply scan_short.
  - left. exists c. intros rest. by apply scan_literal.
  - destruct s as [|c2 t].
    + left. exists c. intros rest. by apply scan_u_plain.
    + cbn [flat_map].
      destruct (escape_char_cases c2)
        as [(e & x & -> & He & Hx)|[(-> & ? & ? & ? & ?)|[(-> & Hc2)|
            (hi & lo & -> & Hhi & Hlo & Hh & Hl)]]].
      * left. exists c. intros rest. rewrite <- app_assoc.
        apply scan_u_plain; [done|]. intros r' [=]. done.
      * left. exists c. intros rest. rewrite <- app_assoc.
        apply scan_u_plain; [done|]. intros r' [=]. done.
      * destruct (is_high_surrogate c && is_low_surrogate c2) eqn:Hpair.
        -- right. exists (join_surrogates c c2), c2, t. split; [done|].
           intros rest. rewrite <- app_assoc, scan_u_pair by done. by rewrite Hpair.
        -- left. exists c. intros rest.
           rewrite <- app_assoc, scan_u_pair by done. by rewrite Hpair.
      * left. exists c. intros rest. rewrite <- !app_assoc, scan_u_pair by done.
        by rewrite (high_not_low hi Hh), andb_false_r.
  - left. exists (join_surrogates hi lo). intros rest.
    rewrite <- app_assoc, scan_u_pair by done. by rewrite Hh, Hl.
Qed.

(** Every escaped string is read back, up to its closing quote. *)
Lemma scan_escaped (s : str) :
  exists s', forall rest,
    scanstring (flat_map escape_char s ++ dquote :: rest) = Some (s', rest).
Proof.
  remember (length s) as n eqn:Hn.
  revert s Hn. induction (lt_wf n) as [n _ IH]. intros s ->.
  destruct s as [|c s].
  - by exists [].
  - cbn [flat_map].
    destruct (scan_escape_char c s) as [(x & Hx)|(x & c2 & t & -> & Hx)].
    + destruct (IH (length s) (Nat.lt_succ_diag_r _) s eq_refl) as [s' Hs'].
      exists (x :: s'). intros rest. by rewrite <- app_assoc, Hx, Hs'.
    + destruct (IH (length t)) with (s := t) as [s' Hs']; [simpl; lia|done|].
      exists (x :: s'). intros rest. by rewrite <- app_assoc, Hx, Hs'.
Qed.

Lemma escape_plain (s : str) : plain s -> flat_map escape_char s = s.
Proof.
  induction 1 as [|c s (? & ? & ? & ?) _ IH]; [done|].
  cbn [flat_map]. rewrite IH. unfold escape_char.
  destruct (N.eqb_spec c dquote); [done|].
  destruct (N.eqb_spec c backslash); [done|].
  repeat (match goal with
          | |- context [c =? ?k] => destruct (N.eqb_spec c k); [lia|]
          end).
  destruct (N.leb_spec 32 c); [|lia]. destruct (N.leb_spec c 126); [done|lia].
Qed.

Lemma scan_plain (s rest : str) :
  plain s -> scanstring (s ++ dquote :: rest) = Some (s, rest).
Proof.
  induction 1 as [|c s (? & ? & ? & ?) _ IH]; [done|].
  cbn [app]. rewrite scan_literal by done. by rewrite IH.
Qed.

Lemma plainb_plain (s : str) : plainb s = true -> plain s.
Proof.
  unfold plainb, plain. rewrite forallb_forall, Forall_forall.
  intros H c Hc. apply list_elem_of_In, H in Hc.
  apply andb_true_iff in Hc as [[[H1 H2]%andb_true_iff H3]%andb_true_iff H4].
  apply N.leb_le in H1, H2. apply negb_true_iff in H3, H4.
  apply N.eqb_neq in H3, H4. done.
Qed.

(** *** The steps of the decoder *)

Lemma parse_value_space (f : nat) (s : str) :
  parse_value f (32 :: s) = parse_value f s.
Proof. by destruct f. Qed.

Lemma parse_members_space (f : nat) (s : str) :
  parse_members f (32 :: s) = parse_members f s.
Proof. by destruct f. Qed.

Lemma parse_string (f : nat) (r R : str) (x : str) :
  scanstring r = Some (x, R) ->
  parse_value (S f) (dquote :: r) = Some (JString x, R).
Proof. intros H. cbn [parse_value skip_ws]. cbn. by rewrite H. Qed.

Lemma parse_object (f : nat) (r R : str) (kvs : list (str * json)) :
  parse_members f (dquote :: r) = Some (kvs, R) ->
  parse_value (S f) (123 :: dquote :: r) = Some (JObject kvs, R).
Proof.
  intros H. cbn [parse_value]. change (skip_ws (123 :: dquote :: r)) with (123 :: dquote :: r).
  change (123 =? dquote) with false. change (123 =? 123) with true. cbv iota.
  change (skip_ws (dquote :: r)) with (dquote :: r).
  change (dquote =? 125) with false. cbv iota. by rewrite H.
Qed.

Lemma parse_array (f : nat) (r R : str) (vs : list json) :
  parse_elements f (123 :: r) = Some (vs, R) ->
  parse_value (S f) (91 :: 123 :: r) = Some (JArray vs, R).
Proof.
  intros H. cbn [parse_value]. change (skip_ws (91 :: 123 :: r)) with (91 :: 123 :: r).
  change (91 =? dquote) with false. change (91 =? 123) with false.
  change (91 =? 91) with true. cbv iota.
  change (skip_ws (123 :: r)) with (123 :: r).
  change (123 =? 93) with false. cbv iota. by rewrite H.
Qed.

Lemma parse_element_more (f : nat) (s r1 R : str) (v : json) (vs : list json) :
  parse_value f s = Some (v, 44 :: r1) ->
  parse_elements f r1 = Some (vs, R) ->
  parse_elements (S f) s = Some (v :: vs, R).
Proof. intros Hv Hvs. cbn [parse_elements]. rewrite Hv. cbn. by rewrite Hvs. Qed.

Lemma parse_element_last (f : nat) (s R : str) (v : json) :
  parse_value f s = Some (v, 93 :: R) ->
  parse_elements (S f) s = Some ([v], R).
Proof. intros Hv. cbn [parse_elements]. by rewrite Hv. Qed.

Lemma parse_member_more (f : nat) (r r2 r4 R : str) (k : str) (v : json)
    (kvs : list (str * json)) :
  scanstring r = Some (k, 58 :: r2) ->
  parse_value f r2 = Some (v, 44 :: r4) ->
  parse_members f r4 = Some (kvs, R) ->
  parse_members (S f) (dquote :: r) = Some ((k, v) :: kvs, R).
Proof.
  intros Hk Hv Hkvs. cbn [parse_members].
  change (skip_ws (dquote :: r)) with (dquote :: r).
  change (negb (dquote =? dquote)) with false. cbv iota.
  rewrite Hk. cbn. rewrite Hv. cbn. by rewrite Hkvs.
Qed.

Lemma parse_member_last (f : nat) (r r2 R : str) (k : str) (v : json) :
  scanstring r = Some (k, 58 :: r2) ->
  parse_value f r2 = Some (v, 125 :: R) ->
  parse_members (S f) (dquote :: r) = Some ([(k, v)], R).
Proof.
  intros Hk Hv. cbn [parse_members].
  change (skip_ws (dquote :: r)) with (dquote :: r).
  change (negb (dquote =? dquote)) with false. cbv iota.
  rewrite Hk. cbn. by rewrite Hv.
Qed.

(** *** Entries *)

Lemma dumps_messages (u a : str) :
  json_dumps (messages u a)
  = 123 :: dquote :: lit "messages" ++ dquote :: 58 :: 32 :: 91
    :: 123 :: dquote :: lit "role" ++ dquote :: 58 :: 32
    :: dquote :: lit "user" ++ dquote :: 44 :: 32
    :: dquote :: lit "content" ++ dquote :: 58 :: 32
    :: dquote :: flat_map escape_char u ++ dquote :: 125 :: 44 :: 32
    :: 123 :: dquote :: lit "role" ++ dquote :: 58 :: 32
    :: dquote :: lit "assistant" ++ dquote :: 44 :: 32
    :: dquote :: lit "content" ++ dquote :: 58 :: 32
    :: dquote :: flat_map escape_char a ++ [dquote; 125; 93; 125].
Proof.
  unfold messages. cbn [json_dumps]. unfold encode_basestring_ascii.
  change (flat_map escape_char (lit "messages")) with (lit "messages").
  change (flat_map escape_char (lit "role")) with (lit "role").
  change (flat_map escape_char (lit "content")) with (lit "content").
  change (flat_map escape_char (lit "user")) with (lit "user").
  change (flat_map escape_char (lit "assistant")) with (lit "assistant").
  change (lit "{") with [123]. change (lit "}") with [125].
  change (lit "[") with [91]. change (lit "]") with [93].
  change (lit ": ") with [58; 32]. change (lit ", ") with [44; 32].
  repeat (cbn [app] || rewrite <- app_assoc). reflexivity.
Qed.

Lemma parse_messages_with (u a u' a' : str) (fuel : nat) :
  (forall rest,
     scanstring (flat_map escape_char u ++ dquote :: rest) = Some (u', rest)) ->
  (forall rest,
     scanstring (flat_map escape_char a ++ dquote :: rest) = Some (a', rest)) ->
  (10 <= fuel)%nat ->
  parse_value fuel (json_dumps (messages u a)) = Some (chat u' a', []).
Proof.
  intros Hu Ha Hfuel. rewrite dumps_messages.
  destruct (Nat.le_exists_sub 10 fuel Hfuel) as (f & -> & _).
  rewrite Nat.add_comm. cbn [Nat.add].
  erewrite parse_object; [reflexivity|].
  eapply parse_member_last; [by apply scan_plain, plainb_plain|].
  rewrite parse_value_space. eapply parse_array.
  eapply parse_element_more.
  - eapply parse_object. eapply parse_member_more.
    + by apply scan_plain, plainb_plain.
    + rewrite parse_value_space. eapply parse_string.
      by apply scan_plain, plainb_plain.
    + rewrite parse_members_space. eapply parse_member_last.
      * by apply scan_plain, plainb_plain.
      * rewrite parse_value_space. eapply parse_string. apply Hu.
  - eapply parse_element_last.
    rewrite parse_value_space. eapply parse_object.
    eapply parse_member_more.
    + by apply scan_plain, plainb_plain.
    + rewrite parse_value_space. eapply parse_string.
      by apply scan_plain, plainb_plain.
    + rewrite parse_members_space. eapply parse_member_last.
      * by apply scan_plain, plainb_plain.
      * rewrite parse_value_space. eapply parse_string. apply Ha.
Qed.

Lemma parse_messages (u a : str) (fuel : nat) :
  (10 <= fuel)%nat ->
  exists u' a',
    parse_value fuel (json_dumps (messages u a)) = Some (chat u' a', []).
Proof.
  intros Hfuel.
  destruct (scan_escaped u) as [u' Hu]. destruct (scan_escaped a) as [a' Ha].
  exists u', a'. by apply parse_messages_with.
Qed.

Lemma dumps_messages_length (u a : str) :
  (10 <= length (json_dumps (messages u a)))%nat.
Proof.
  rewrite dumps_messages. cbn [length]. rewrite length_app.
  change (length (lit "messages")) with 8%nat. lia.
Qed.

Lemma loads_messages (u a : str) : chat_line (json_dumps (messages u a)).
Proof.
  unfold chat_line, json_loads.
  destruct (parse_messages u a (S (2 * length (json_dumps (messages u a)))))
    as (u' & a' & ->).
  - pose proof (dumps_messages_length u a). lia.
  - by exists u', a'.
Qed.

(** *** The exact round trip *)

Lemma join_halves (c : N) :
  65536 <= c -> c < 1114112 ->
  join_surrogates (N.lor 55296 (N.land (N.shiftr (c - 65536) 10) 1023))
                  (N.lor 56320 (N.land (c - 65536) 1023)) = c.
Proof.
  intros Hlo Hhi.
  assert (exists n, c = 65536 + n /\ n < 1048576) as (n & -> & Hn)
    by (exists (c - 65536); lia).
  replace (65536 + n - 65536) with n by lia.
  change 55296 with (54 * 1024). change 56320 with (55 * 1024).
  rewrite !lor_low_bits by apply land_1023.
  unfold join_surrogates.
  change 1023 with (N.ones 10). rewrite !N.land_ones, N.shiftr_div_pow2.
  change (2 ^ 10) with 1024.
  assert (n / 1024 < 1024) as Hq by (apply N.Div0.div_lt_upper_bound; lia).
  rewrite (N.mod_small (n / 1024)) by done.
  pose proof (N.div_mod n 1024 ltac:(discriminate)) as Hdiv.
  pose proof (N.mod_lt n 1024 ltac:(discriminate)) as Hmod.
  revert Hdiv Hmod Hq. generalize (n / 1024) (n mod 1024). intros q r Hdiv Hmod Hq.
  replace (54 * 1024 + q - 55296) with q by lia.
  replace (55 * 1024 + r - 56320) with r by lia.
  rewrite N.shiftl_mul_pow2. change (2 ^ 10) with 1024.
  rewrite lor_low_bits by done. lia.
Qed.

Lemma scan_escape_exact (c : N) (r : str) :
  is_high_surrogate c = false -> c < 1114112 ->
  scanstring (escape_char c ++ r) = cons_scanned c (scanstring r).
Proof.
  intros Hhigh Hmax. unfold escape_char.
  destruct (N.eqb_spec c dquote) as [->|?]; [done|].
  destruct (N.eqb_spec c backslash) as [->|?]; [done|].
  destruct (N.eqb_spec c 10) as [->|?]; [done|].
  destruct (N.eqb_spec c 13) as [->|?]; [done|].
  destruct (N.eqb_spec c 9) as [->|?]; [done|].
  destruct (N.eqb_spec c 8) as [->|?]; [done|].
  destruct (N.eqb_spec c 12) as [->|?]; [done|].
  destruct (N.leb_spec 32 c); destruct (N.leb_spec c 126); cbn [andb];
    try (by apply scan_literal).
  all: destruct (N.ltb_spec c 65536);
    [rewrite scan_u_escape by done; by rewrite Hhigh|].
  all: destruct (high_half (c - 65536)) as [? Hh];
       destruct (low_half (c - 65536)) as [? Hl]; cbv zeta in *.
  all: rewrite <- app_assoc, scan_u_pair by done.
  all: by rewrite Hh, Hl, join_halves.
Qed.

Lemma scan_exact (s rest : str) :
  no_high_surrogate s ->
  scanstring (flat_map escape_char s ++ dquote :: rest) = Some (s, rest).
Proof.
  induction 1 as [|c s [Hhigh Hmax] _ IH]; [done|].
  cbn [flat_map]. rewrite <- app_assoc, scan_escape_exact by done. by rewrite IH.
Qed.

(** An entry whose turns have no high surrogates is read back as it was. *)
Lemma loads_messages_exact (u a : str) :
  no_high_surrogate u -> no_high_surrogate a ->
  json_loads (json_dumps (messages u a)) = Some (chat u a).
Proof.
  intros Hu Ha. unfold json_loads.
  rewrite (parse_messages_with u a u a); [done| | |].
  - intros rest. by apply scan_exact.
  - intros rest. by apply scan_exact.
  - pose proof (dumps_messages_length u a). lia.
Qed.

(** *** Lines *)

Lemma plain_printable (s : str) : plain s -> printable s.
Proof.
  intros H. eapply Forall_impl; [exact H|]. intros c (? & ? & _). done.
Qed.

Lemma hexdigit_printable (d : N) : d < 16 -> 32 <= hexdigit d /\ hexdigit d <= 126.
Proof.
  intros Hd. unfold hexdigit. destruct (N.ltb_spec d 10); lia.
Qed.

Lemma u_escape_printable (x : N) : printable (u_escape x).
Proof.
  unfold u_escape, hex4, printable.
  repeat (apply Forall_cons; split;
          [first [apply hexdigit_printable, N.mod_lt; discriminate
                 |unfold backslash; lia]|]).
  apply Forall_nil_2.
Qed.

Lemma escape_char_printable (c : N) : printable (escape_char c).
Proof.
  destruct (escape_char_cases c)
    as [(e & x & -> & He & Hx)|[(-> & ? & ? & ? & ?)|[(-> & Hc)|
        (hi & lo & -> & _)]]].
  - apply Forall_cons. split; [unfold backslash; lia|].
    apply Forall_cons. split; [|apply Forall_nil_2].
    unfold short_escape in Hx.
    repeat (match type of Hx with
            | context [e =? ?k] => destruct (N.eqb_spec e k);
                                   [subst e; unfold dquote, backslash; lia|]
            end).
    done.
  - apply Forall_cons. split; [done|apply Forall_nil_2].
  - apply u_escape_printable.
  - apply Forall_app. split; apply u_escape_printable.
Qed.

Lemma escaped_printable (s : str) : printable (flat_map escape_char s).
Proof.
  induction s as [|c s IH]; [apply Forall_nil_2|].
  cbn [flat_map]. apply Forall_app. split; [apply escape_char_printable|done].
Qed.

Lemma dumps_messages_printable (u a : str) : printable (json_dumps (messages u a)).
Proof.
  rewrite dumps_messages. unfold printable.
  repeat first
    [apply Forall_nil_2
    |apply Forall_cons; split; [unfold dquote; lia|]
    |apply Forall_app; split;
     [first [apply escaped_printable|by apply plain_printable, plainb_plain]|]].
Qed.

Lemma printable_no_linebreak (c : N) : 32 <= c /\ c <= 126 -> is_linebreak c = false.
Proof.
  intros [? ?]. unfold is_linebreak.
  repeat (match goal with
          | |- context [c =? ?k] => destruct (N.eqb_spec c k); [lia|]
          end).
  done.
Qed.

Lemma splitlines_line (l rest : str) :
  printable l -> splitlines (l ++ LF :: rest) = l :: splitlines rest.
Proof.
  induction 1 as [|c l Hc _ IH]; [done|].
  cbn [app splitlines]. by rewrite (printable_no_linebreak c Hc), IH.
Qed.

Lemma splitlines_written (data : list pyobj) :
  Forall is_entry data ->
  splitlines (flat_map (fun entry => json_dumps entry ++ [LF]) data)
  = map json_dumps data.
Proof.
  induction 1 as [|e data (u & a & ->) _ IH]; [done|].
  cbn [flat_map map]. rewrite <- app_assoc. cbn [app].
  rewrite splitlines_line by apply dumps_messages_printable. by rewrite IH.
Qed.

Lemma written_lines_chat (data : list pyobj) :
  Forall is_entry data -> Forall chat_line (map json_dumps data).
Proof.
  induction 1 as [|e data (u & a & ->) _ IH]; [apply Forall_nil_2|].
  apply Forall_cons. split; [apply loads_messages|done].
Qed.

(** *** The entries of a run *)

Lemma questions_are_entries (w : World) (self : ProjectDataGenerator)
    (questions : list pyobj) :
  generate_validation_questions w self = Ret questions -> Forall is_entry questions.
Proof.
  unfold generate_validation_questions.
  destruct (random_sample _ _ _) as [selected|e]; [|done].
  cbn [bind]. intros [= <-]. apply Forall_forall. intros e He.
  change (map ?f ?l) with (f <$> l) in He.
  apply list_elem_of_fmap in He as ([line file_path] & -> & _). by eexists _, _.
Qed.

Lemma scan_entries (w : World) (self : ProjectDataGenerator) :
  Forall is_entry (jsonl_data self) -> Forall is_entry (jsonl_data (scan w self)).
Proof.
  intros H. rewrite scan_jsonl_data. apply Forall_app. split; [done|].
  apply Forall_forall. intros e He.
  change (map ?f ?l) with (f <$> l) in He.
  apply list_elem_of_fmap in He as (p & -> & _). by eexists _, _.
Qed.

Lemma generate_data_entries (w : World) (self g : ProjectDataGenerator)
    (rep : Report) (out : list (str * str)) :
  Forall is_entry (jsonl_data self) ->
  generate_data w self = Ret (g, rep, out) ->
  Forall is_entry (jsonl_data g)
  /\ Forall is_entry (validation_questions g)
  /\ training_file rep = training_file_name self (now w)
  /\ validation_file rep = validation_file_name self (now w)
  /\ out = write_jsonl_files w g (now w).
Proof.
  intros Hself. unfold generate_data.
  pose proof (scan_entries w self Hself) as Hscan.
  assert (project_name (scan w self) = project_name self) as Hname.
  { rewrite scan_kept. apply (absorb_all_fields w (scanned w self) self). }
  destruct (generate_validation_questions w (scan w self)) as [questions|e] eqn:Hq;
    [|done].
  apply questions_are_entries in Hq.
  remember (scan w self) as s eqn:Hs. cbn [bind]. cbv zeta. intros [= <- <- <-].
  cbn [jsonl_data validation_questions set_jsonl_data set_validation_questions].
  unfold training_file_name, validation_file_name.
  cbn [project_name set_jsonl_data set_validation_questions]. rewrite Hname.
  split_and!; try done.
  - apply Forall_app. split.
    + apply Forall_app. split; [done|]. by apply Forall_take.
    + apply Forall_cons. split; [|apply Forall_nil_2]. by eexists _, _.
  - by apply Forall_drop.
Qed.

(** C6: every line of a file written by a run reads back as a JSON
    object whose [messages] member is an array of exactly two objects,
    the first with role [user] and the second with role [assistant],
    each with a string as content; the lines of the training file are
    the entries of the training set, one each and in order, and those
    of the validation file the entries of the validation set. An entry
    whose turns have no high surrogate reads back with those turns. *)
Theorem written_lines_read_back (w : World) (self g : ProjectDataGenerator)
    (rep : Report) (out : list (str * str)) :
  Forall is_entry (jsonl_data self) ->
  generate_data w self = Ret (g, rep, out) ->
  (forall file_name text,
     (file_name, text) ∈ out ->
     Forall chat_line (splitlines text)
     /\ ((file_name = training_file rep
          /\ splitlines text = map json_dumps (jsonl_data g))
         \/ (file_name = validation_file rep
             /\ splitlines text = map json_dumps (validation_questions g))))
  /\ (forall user assistant,
        no_high_surrogate user -> no_high_surrogate assistant ->
        json_loads (json_dumps (messages user assistant))
        = Some (chat user assistant)).
Proof.
  intros Hself Hrun. split; [|apply loads_messages_exact].
  intros file_name text Hin.
  destruct (generate_data_entries w self g rep out Hself Hrun)
    as (Hdata & Hval & -> & -> & ->).
  unfold write_jsonl_files, write_jsonl_file in Hin.
  assert ((file_name = training_file_name g (now w)
           /\ text = flat_map (fun entry => json_dumps entry ++ [LF]) (jsonl_data g))
          \/ (file_name = validation_file_name g (now w)
              /\ text = flat_map (fun entry => json_dumps entry ++ [LF])
                          (validation_questions g))) as Hcase.
  { destruct (can_write w (training_file_name g (now w)));
      destruct (can_write w (validation_file_name g (now w)));
      cbn [app] in Hin;
      repeat (apply elem_of_cons in Hin as [[= -> ->]|Hin]; [by auto|]);
      by apply elem_of_nil in Hin. }
  assert (project_name g = project_name self) as Hname.
  { unfold generate_data in Hrun.
    destruct (generate_validation_questions w (scan w self)); [|done].
    cbn [bind] in Hrun. injection Hrun as <- _ _.
    cbn [project_name set_jsonl_data set_validation_questions].
    rewrite scan_kept. apply (absorb_all_fields w (scanned w self) self). }
  unfold training_file_name, validation_file_name in *. rewrite Hname in Hcase.
  destruct Hcase as [[-> ->]|[-> ->]]; rewrite splitlines_written by done.
  - split; [by apply written_lines_chat|]. by left.
  - split; [by apply written_lines_chat|]. by right.
Qed.

Lemma written_lines_read_back_witness :
  Forall is_entry (jsonl_data (demo_generator (2 # 5)))
  /\ exists g rep out,
       generate_data (plain_world demo_project) (demo_generator (2 # 5))
       = Ret (g, rep, out)
       /\ length out = 2%nat
       /\ forall file_name text,
            (file_name, text) ∈ out -> Forall chat_line (splitlines text).
Proof.
  assert (Forall is_entry (jsonl_data (demo_generator (2 # 5)))) as Hself
    by apply Forall_nil_2.
  split; [exact Hself|].
  destruct (generate_data (plain_world demo_project) (demo_generator (2 # 5)))
    as [[[g rep] out]|e] eqn:Hrun; [|by vm_compute in Hrun].
  exists g, rep, out. split; [reflexivity|]. split.
  - vm_compute in Hrun. injection Hrun as _ _ <-. reflexivity.
  - intros file_name text Hin.
    exact (proj1 (proj1 (written_lines_read_back _ _ g rep out Hself Hrun)
                    file_name text Hin)).
Defined.

(** ** The two scenarios *)

Lemma file_names_differ (name ts : str) :
  str_eqb (name ++ lit "_validation_" ++ ts ++ lit ".jsonl")
          (name ++ lit "_training_" ++ ts ++ lit ".jsonl") = false.
Proof.
  unfold str_eqb. apply bool_decide_eq_false. intros H.
  apply app_inv_head in H. discriminate H.
Qed.

Lemma py_int_scale_0 (q : Q) : py_int (scale 0 q) = 0%Z.
Proof. by destruct q. Qed.

Lemma scan_empty (w : World) (self : ProjectDataGenerator) :
  project_dir w = [] -> scan w self = self.
Proof. intros H. unfold scan. by rewrite H. Qed.

Lemma get_project_structure_empty (w : World) (self : ProjectDataGenerator) :
  project_dir w = [] -> get_project_structure w self = [].
Proof. intros H. unfold get_project_structure. by rewrite H. Qed.

Lemma init_no_gitignore (w : World) (name : str) (use_gitignore : bool) (ratio : Q) :
  find_entry (lit ".gitignore") (project_dir w) = None ->
  init w name use_gitignore ratio
  = Ret (new_generator name use_gitignore ratio None).
Proof.
  intros H. unfold init, load_gitignore. rewrite H. by destruct use_gitignore.
Qed.

(** C3, as the program has it: over an empty project directory both
    files are written when they can be opened; the validation file is
    empty, the training file has exactly one line, the structure entry
    with an empty [project_structure], and the token count is 0. *)
Theorem empty_project_run (w : World) (name : str) (use_gitignore : bool) (ratio : Q) :
  project_dir w = [] ->
  can_write w (name ++ lit "_training_" ++ now w ++ lit ".jsonl") = true ->
  can_write w (name ++ lit "_validation_" ++ now w ++ lit ".jsonl") = true ->
  exists g rep out training_text,
    main w name use_gitignore ratio = Ret (g, rep, out)
    /\ report_token_count rep = 0%nat
    /\ jsonl_data g = [generate_project_structure_question g []]
    /\ validation_questions g = []
    /\ read_back out (training_file rep) = Some training_text
    /\ splitlines training_text
       = [json_dumps (generate_project_structure_question g [])]
    /\ chat_line (json_dumps (generate_project_structure_question g []))
    /\ read_back out (validation_file rep) = Some []
    /\ splitlines [] = [].
Proof.
  intros Hdir Ht Hv.
  unfold main. rewrite init_no_gitignore by (by rewrite Hdir). cbn [bind].
  unfold generate_data. rewrite scan_empty by done.
  unfold generate_validation_questions.
  change (unique_lines (new_generator name use_gitignore ratio None))
    with (@nil (list N * list N)).
  cbn [length]. rewrite py_int_scale_0.
  change (random_sample (draws w) [] 0) with (@Ret (list (list N * list N)) []).
  cbn [bind map]. cbv zeta.
  cbn [validation_questions set_validation_questions set_jsonl_data jsonl_data
       length].
  rewrite py_int_scale_0.
  change (slice_to 0 []) with (@nil pyobj).
  change (slice_from 0 []) with (@nil pyobj).
  rewrite get_project_structure_empty by done.
  unfold write_jsonl_files, write_jsonl_file, training_file_name,
    validation_file_name.
  cbn [validation_questions set_validation_questions set_jsonl_data jsonl_data
       project_name new_generator app flat_map].
  rewrite Ht, Hv.
  do 4 eexists. split; [reflexivity|].
  cbn [report_token_count token_count training_file validation_file jsonl_data
       validation_questions app read_back].
  rewrite file_names_differ.
  unfold str_eqb. rewrite !bool_decide_eq_true_2 by done.
  split_and!; try reflexivity.
  - rewrite app_nil_r. unfold generate_project_structure_question.
    rewrite splitlines_line by apply dumps_messages_printable. reflexivity.
  - apply loads_messages.
Qed.

Lemma empty_project_run_witness :
  project_dir (plain_world []) = []
  /\ exists g rep out text,
       main (plain_world []) (lit "P") true (2 # 5) = Ret (g, rep, out)
       /\ report_token_count rep = 0%nat
       /\ read_back out (training_file rep) = Some text
       /\ splitlines text = [json_dumps (generate_project_structure_question g [])]
       /\ read_back out (validation_file rep) = Some [].
Proof.
  split; [reflexivity|].
  destruct (empty_project_run (plain_world []) (lit "P") true (2 # 5)
              eq_refl eq_refl eq_refl)
    as (g & rep & out & text & Hrun & Htok & _ & _ & Htrain & Hlines & _ & Hval & _).
  exists g, rep, out, text.
  split; [exact Hrun|]. split; [exact Htok|]. split; [exact Htrain|].
  split; [exact Hlines|exact Hval].
Defined.

(** C3 as stated fails: over an empty project directory the training
    file has one line, not none. *)
Lemma empty_project_training_file_not_empty :
  exists g rep out text,
    main (plain_world []) (lit "P") true (2 # 5) = Ret (g, rep, out)
    /\ read_back out (training_file rep) = Some text
    /\ length (splitlines text) = 1%nat
    /\ splitlines text <> [].
Proof.
  do 4 eexists. split; [vm_compute; reflexivity|].
  split; [vm_compute; reflexivity|]. split; [vm_compute; reflexivity|].
  vm_compute. discriminate.
Qed.

Lemma relpath_single (w : World) (file : str) : relpath w [file] = file.
Proof. reflexivity. Qed.

Lemma scan_project_ab (w : World) (self : ProjectDataGenerator) :
  project_dir w = project_ab ->
  spec self = None ->
  scanned w self = [[lit "a.ts"]; [lit "b.md"]]
  /\ get_file_content w [lit "a.ts"] = lit "x"
  /\ get_file_content w [lit "b.md"] = lit "x"
  /\ get_project_structure w self = [lit "a.ts"].
Proof.
  intros Hdir Hspec.
  assert (scanned w self = [[lit "a.ts"]; [lit "b.md"]]) as Hsc.
  { unfold scanned, walked_files, ignored. by rewrite Hdir, Hspec. }
  split_and!.
  - done.
  - unfold get_file_content, read_text. by rewrite Hdir.
  - unfold get_file_content, read_text. by rewrite Hdir.
  - rewrite get_project_structure_scanned, Hsc. unfold structure_of.
    rewrite filter_cons_True by done. rewrite filter_cons_False by done.
    unfold normalized. cbn [filter list_filter map]. rewrite relpath_single.
    by destruct (os w).
Qed.

(** C5, as the program has it: when the directory lists [a.ts] before
    [b.md], both with content [x], without an ignore file and with
    ratio 1, the unique-line table is [{"x": "a.ts"}]; the one sampled
    entry answers [{"file_path": "a.ts"}] and is the validation set;
    the training set is the two source-code entries and the structure
    entry listing [a.ts] alone. *)
Theorem scenario_a_then_b (w : World) (name : str) (use_gitignore : bool) :
  project_dir w = project_ab ->
  exists g rep out,
    main w name use_gitignore 1 = Ret (g, rep, out)
    /\ unique_lines g = [(lit "x", lit "a.ts")]
    /\ validation_questions g
       = [messages
            (lit "In the " ++ name
             ++ lit " project, where can I find this line of code: '"
             ++ lit "x" ++ lit "'?")
            (lit "{" ++ [dquote] ++ lit "file_path" ++ [dquote] ++ lit ": "
             ++ [dquote] ++ lit "a.ts" ++ [dquote] ++ lit "}")]
    /\ jsonl_data g
       = [messages
            (lit "What is the source code of " ++ lit "a.ts" ++ lit " for the "
             ++ name ++ lit " project?") (lit "x");
          messages
            (lit "What is the source code of " ++ lit "b.md" ++ lit " for the "
             ++ name ++ lit " project?") (lit "x");
          generate_project_structure_question g [lit "a.ts"]]
    /\ json_dumps (PyDict [(lit "project_structure", PyList (map PyStr [lit "a.ts"]))])
       = lit "{" ++ [dquote] ++ lit "project_structure" ++ [dquote] ++ lit ": ["
         ++ [dquote] ++ lit "a.ts" ++ [dquote] ++ lit "]}".
Proof.
  intros Hdir. unfold main.
  rewrite init_no_gitignore by (by rewrite Hdir). cbn [bind].
  set (self := new_generator name use_gitignore 1 None).
  assert (valid_ratio (validation_ratio self)) as Hq
    by (split; unfold Qle; simpl; lia).
  destruct (scan_project_ab w self Hdir eq_refl) as (Hsc & Ha & Hb & Hstruct).
  destruct (generate_data_ok w self Hq)
    as (selected & g & rep & out & Hrun & _ & Hsel & _ & _ & Hdata & Hval
        & Hlines & _ & Hname & _).
  assert (unique_lines (scan w self) = [(lit "x", lit "a.ts")]) as Htable.
  { rewrite scan_unique_lines, Hsc. unfold collect_lines, lines_of.
    cbn [fold_left]. by rewrite Ha, Hb, !relpath_single. }
  rewrite Htable in Hsel, Hlines.
  assert (selected = [(lit "x", lit "a.ts")]) as ->.
  { rewrite Hsel.
    change (sample_size _ _) with 1%nat.
    cbn [sample_loop length]. by rewrite Nat.mod_1_r. }
  rewrite scan_jsonl_data, Hsc, Hstruct in Hdata.
  unfold source_code_entry in Hdata. cbn [map] in Hdata.
  rewrite Ha, Hb, !relpath_single in Hdata.
  exists g, rep, out. split; [done|]. split; [done|]. split; [by rewrite Hval|].
  split; [|reflexivity].
  rewrite Hdata. cbn. unfold generate_project_structure_question. by rewrite Hname.
Qed.

Lemma scenario_a_then_b_witness :
  project_dir (plain_world project_ab) = project_ab
  /\ exists g rep out,
       main (plain_world project_ab) (lit "P") true 1 = Ret (g, rep, out)
       /\ unique_lines g = [(lit "x", lit "a.ts")]
       /\ length (validation_questions g) = 1%nat
       /\ length (jsonl_data g) = 3%nat.
Proof.
  split; [reflexivity|].
  destruct (scenario_a_then_b (plain_world project_ab) (lit "P") true eq_refl)
    as (g & rep & out & Hrun & Htable & Hval & Hdata & _).
  exists g, rep, out. split; [exact Hrun|]. split; [exact Htable|].
  split; [by rewrite Hval|by rewrite Hdata].
Defined.

(** C5 as stated fails: the scenario does not fix the order in which
    the directory lists its two files, and when [b.md] comes first the
    line [x] belongs to [b.md]. *)
Lemma scenario_b_then_a :
  exists g rep out,
    main (plain_world project_ba) (lit "P") true 1 = Ret (g, rep, out)
    /\ unique_lines g = [(lit "x", lit "b.md")]
    /\ unique_lines g <> [(lit "x", lit "a.ts")]
    /\ validation_questions g
       = [messages
            (lit "In the P project, where can I find this line of code: 'x'?")
            (lit "{" ++ [dquote] ++ lit "file_path" ++ [dquote] ++ lit ": "
             ++ [dquote] ++ lit "b.md" ++ [dquote] ++ lit "}")].
Proof.
  do 3 eexists. split; [vm_compute; reflexivity|].
  split; [vm_compute; reflexivity|]. split; [vm_compute; discriminate|].
  vm_compute. reflexivity.
Qed.

(** * Further properties *)

(** ** [tokenize] *)



(** ** Lines and the table *)

Lemma splitlines_no_linebreak (s : str) :
  Forall (Forall (fun c => is_linebreak c = false)) (splitlines s).
Proof.
  remember (length s) as n eqn:Hn. revert s Hn.
  induction (lt_wf n) as [n _ IH]. intros s ->.
  destruct s as [|c s]; [apply Forall_nil_2|].
  pose proof (IH (length s) (Nat.lt_succ_diag_r _) s eq_refl) as IHs.
  cbn [splitlines]. destruct (is_linebreak c) eqn:Hc.
  - destruct (c =? CR).
    + destruct s as [|c' s'].
      * apply Forall_cons. split; apply Forall_nil_2.
      * destruct (c' =? LF).
        -- apply Forall_cons. split; [apply Forall_nil_2|].
           apply (IH (length s')); [simpl; lia|done].
        -- apply Forall_cons. split; [apply Forall_nil_2|done].
    + apply Forall_cons. split; [apply Forall_nil_2|done].
  - destruct (splitlines s) as [|l ls].
    + apply Forall_cons. split; [|apply Forall_nil_2].
      apply Forall_cons. split; [done|apply Forall_nil_2].
    + apply Forall_cons in IHs as [Hl Hls].
      apply Forall_cons. split; [|done]. by apply Forall_cons.
Qed.

(** The keys of the unique-line table never hold a line terminator,
    and neither does the line quoted in a line-location entry. *)
Theorem table_keys_are_single_lines (w : World) (name : str) (use_gitignore : bool)
    (ratio : Q) (s : option PathSpec) :
  let self := new_generator name use_gitignore ratio s in
  forall line file_path,
    (line, file_path) ∈ unique_lines (scan w self) ->
    Forall (fun c => is_linebreak c = false) line.
Proof.
  intros self line file_path Hin. rewrite scan_unique_lines in Hin.
  apply collect_lines_elem in Hin
    as [Hin|(_ & before & f & after & _ & _ & Hline & _)];
    [by apply elem_of_nil in Hin|].
  unfold lines_of in Hline.
  pose proof (splitlines_no_linebreak (get_file_content w f)) as H.
  rewrite Forall_forall in H. by apply H.
Qed.

Lemma table_keys_are_single_lines_witness :
  (lit "run()", lit "main.ts")
  ∈ unique_lines (scan (plain_world demo_project) (demo_generator (2 # 5)))
  /\ Forall (fun c => is_linebreak c = false) (lit "run()").
Proof.
  assert ((lit "run()", lit "main.ts")
          ∈ unique_lines (scan (plain_world demo_project) (demo_generator (2 # 5))))
    as Hin.
  { vm_compute. do 2 apply list_elem_of_further. apply list_elem_of_here. }
  split; [exact Hin|].
  exact (table_keys_are_single_lines (plain_world demo_project) (lit "demo") true
           (2 # 5) (Some [dist_pattern]) (lit "run()") (lit "main.ts") Hin).
Defined.

Lemma add_lines_known (d : list (str * str)) (ls : list str) (fp : str) :
  (forall l, l ∈ ls -> l ∈ d.*1) -> add_lines d ls fp = d.
Proof.
  induction ls as [|l ls IH]; intros H; [done|].
  rewrite add_lines_cons.
  assert (dict_contains d l = true) as ->
    by (apply dict_contains_keys, H, list_elem_of_here).
  apply IH. intros x Hx. by apply H, list_elem_of_further.
Qed.

Lemma add_lines_extends (d : list (str * str)) (ls : list str) (fp : str) :
  exists added,
    add_lines d ls fp = d ++ added
    /\ Forall (fun kv => fst kv ∈ ls /\ snd kv = fp) added.
Proof.
  revert d. induction ls as [|l ls IH]; intros d.
  - exists []. split; [by rewrite app_nil_r|apply Forall_nil_2].
  - rewrite add_lines_cons. destruct (dict_contains d l).
    + destruct (IH d) as (added & -> & Hadded). exists added. split; [done|].
      eapply Forall_impl; [exact Hadded|]. intros kv [? ?]. split; [|done].
      by apply list_elem_of_further.
    + destruct (IH (d ++ [(l, fp)])) as (added & -> & Hadded).
      exists ((l, fp) :: added). split; [by rewrite <- app_assoc|].
      apply Forall_cons. split; [split; [apply list_elem_of_here|done]|].
      eapply Forall_impl; [exact Hadded|]. intros kv [? ?]. split; [|done].
      by apply list_elem_of_further.
Qed.

(** [update_unique_lines] only appends: the table it is given stays as
    the beginning of the new one, what is added are lines of the
    content with the path of this file, and a second update with the
    same content, under whatever path, changes nothing. *)
Theorem update_unique_lines_appends (self : ProjectDataGenerator)
    (content file_path other_path : str) :
  (exists added,
     unique_lines (update_unique_lines self content file_path)
     = unique_lines self ++ added
     /\ Forall (fun kv => fst kv ∈ splitlines content /\ snd kv = file_path) added)
  /\ update_unique_lines (update_unique_lines self content file_path)
       content other_path
     = update_unique_lines self content file_path.
Proof.
  split.
  - apply add_lines_extends.
  - unfold update_unique_lines at 1 3.
    cbn [unique_lines update_unique_lines set_unique_lines].
    rewrite add_lines_known; [done|].
    intros l Hl. apply add_lines_keys. by right.
Qed.

(** ** The ignore file *)

Lemma visit_path_flag (w : World) (self : ProjectDataGenerator) (b : bool) (p : path) :
  visit_path w (set_use_gitignore self b) p
  = set_use_gitignore (visit_path w self p) b.
Proof.
  unfold visit_path.
  change (ignored (set_use_gitignore self b) p) with (ignored self p).
  by destruct (ignored self p).
Qed.

Lemma scan_flag (w : World) (self : ProjectDataGenerator) (b : bool) :
  scan w (set_use_gitignore self b) = set_use_gitignore (scan w self) b.
Proof.
  rewrite !scan_fold. generalize (map file_path_of (walked_files w)). intros ps.
  revert self. induction ps as [|p ps IH]; intros self; [done|].
  cbn [fold_left]. by rewrite visit_path_flag, IH.
Qed.

Lemma generate_data_flag (w : World) (self : ProjectDataGenerator) (b : bool) :
  generate_data w (set_use_gitignore self b)
  = match generate_data w self with
    | Ret (g, rep, out) => Ret (set_use_gitignore g b, rep, out)
    | Raise e => Raise e
    end.
Proof.
  unfold generate_data. rewrite scan_flag.
  change (generate_validation_questions w (set_use_gitignore (scan w self) b))
    with (generate_validation_questions w (scan w self)).
  by destruct (generate_validation_questions w (scan w self)).
Qed.

(** Without a [.gitignore] in the project directory the flag
    [use_gitignore] changes nothing but the field that stores it: the
    report and the files written are the same, and so is every other
    field of the generator. *)
Theorem missing_gitignore_is_tolerated (w : World) (name : str) (ratio : Q) :
  find_entry (lit ".gitignore") (project_dir w) = None ->
  main w name true ratio
  = match main w name false ratio with
    | Ret (g, rep, out) => Ret (set_use_gitignore g true, rep, out)
    | Raise e => Raise e
    end.
Proof.
  intros H. unfold main. rewrite !init_no_gitignore by done. cbn [bind].
  apply (generate_data_flag w (new_generator name false ratio None) true).
Qed.

Lemma missing_gitignore_is_tolerated_witness :
  find_entry (lit ".gitignore") (project_dir (plain_world demo_project)) = None
  /\ main (plain_world demo_project) (lit "demo") true (2 # 5)
     = match main (plain_world demo_project) (lit "demo") false (2 # 5) with
       | Ret (g, rep, out) => Ret (set_use_gitignore g true, rep, out)
       | Raise e => Raise e
       end.
Proof.
  split; [reflexivity|].
  exact (missing_gitignore_is_tolerated (plain_world demo_project) (lit "demo")
           (2 # 5) eq_refl).
Defined.



Lemma filter_all {A} (P : A -> Prop) `{forall x, Decision (P x)} (l : list A) :
  (forall x, x ∈ l -> P x) -> filter P l = l.
Proof.
  induction l as [|x l IH]; intros HP; [done|].
  rewrite filter_cons_True by (apply HP, list_elem_of_here).
  f_equal. apply IH. intros y Hy. by apply HP, list_elem_of_further.
Qed.

(** Without an ignore specification, or with one that has no pattern,
    no file is skipped: every file of the traversal gets its
    source-code entry and the project structure is taken from all of
    them. *)
Theorem nothing_skipped_without_patterns (w : World) (self : ProjectDataGenerator) :
  spec self = None \/ spec self = Some [] ->
  scanned w self = map file_path_of (walked_files w)
  /\ jsonl_data (scan w self)
     = jsonl_data self
       ++ map (source_code_entry w (project_name self))
            (map file_path_of (walked_files w))
  /\ get_project_structure w self
     = structure_of w (map file_path_of (walked_files w)).
Proof.
  intros Hspec.
  assert (scanned w self = map file_path_of (walked_files w)) as Hall.
  { unfold scanned. apply filter_all. intros p _. unfold ignored.
    by destruct Hspec as [-> | ->]. }
  split; [done|]. split.
  - by rewrite scan_jsonl_data, Hall.
  - by rewrite get_project_structure_scanned, Hall.
Qed.

Lemma nothing_skipped_without_patterns_witness :
  (spec (new_generator (lit "demo") true (2 # 5) (Some [])) = None
   \/ spec (new_generator (lit "demo") true (2 # 5) (Some [])) = Some [])
  /\ scanned (plain_world demo_project)
       (new_generator (lit "demo") true (2 # 5) (Some []))
     = [[lit "main.ts"]; [lit "notes.md"]; [lit "broken.tsx"]; [lit "empty.ts"];
        [lit "dist"; lit "out.ts"]; [lit "src"; lit "app.tsx"]].
Proof.
  assert (spec (new_generator (lit "demo") true (2 # 5) (Some [])) = None
          \/ spec (new_generator (lit "demo") true (2 # 5) (Some [])) = Some [])
    as H by (right; reflexivity).
  split; [exact H|].
  destruct (nothing_skipped_without_patterns (plain_world demo_project)
              (new_generator (lit "demo") true (2 # 5) (Some [])) H) as [-> _].
  reflexivity.
Defined.






(** ** The sample *)




(** Every sampled line-location entry is answered correctly: the path
    in its assistant turn is the relative path of a file that was not
    skipped and whose content has the quoted line - the first such file
    of the traversal. The entries of the validation set and those
    moved into the training set are all among the sampled ones. *)
Theorem line_location_answers_hold (w : World) (name : str) (use_gitignore : bool)
    (ratio : Q) (s : option PathSpec) :
  valid_ratio ratio ->
  let self := new_generator name use_gitignore ratio s in
  exists g rep out sampled,
    generate_data w self = Ret (g, rep, out)
    /\ generate_validation_questions w (scan w self) = Ret sampled
    /\ (forall e, e ∈ validation_questions g -> e ∈ sampled)
    /\ (forall e, e ∈ jsonl_data g ->
          e ∈ jsonl_data (scan w self) \/ e ∈ sampled
          \/ e = generate_project_structure_question self (get_project_structure w self))
    /\ Forall
         (fun e =>
            exists line before f after,
              scanned w self = before ++ f :: after
              /\ line ∈ lines_of w f
              /\ (forall f', f' ∈ before -> line ∉ lines_of w f')
              /\ e = messages
                       (lit "In the " ++ name
                        ++ lit " project, where can I find this line of code: '"
                        ++ line ++ lit "'?")
                       (json_dumps (PyDict [(lit "file_path", PyStr (relpath w f))])))
         sampled.
Proof.
  intros Hq self.
  destruct (generate_data_ok w self Hq)
    as (selected & g & rep & out & Hrun & Hgen & _ & _ & Hsub & Hdata & Hval & _).
  exists g, rep, out, (map (line_location_entry (project_name self)) selected).
  split_and!; try done.
  - intros e He. rewrite Hval in He.
    apply (subseteq_drop (length selected / 10)). exact He.
  - intros e He. rewrite Hdata in He.
    apply elem_of_app in He as [He|He]; [by left|].
    apply elem_of_app in He as [He|He].
    + right. left. by apply (subseteq_take (length selected / 10)).
    + right. right. by apply list_elem_of_singleton in He.
  - apply Forall_forall. intros e He.
    change (map ?f ?l) with (f <$> l) in He.
    apply list_elem_of_fmap in He as ([line file_path] & -> & Hin).
    apply (elem_of_submseteq _ _ _ Hin) in Hsub.
    rewrite scan_unique_lines in Hsub.
    apply collect_lines_elem in Hsub
      as [Hsub|(_ & before & f & after & Hsplit & -> & Hline & Hfirst)];
      [by apply elem_of_nil in Hsub|].
    by exists line, before, f, after.
Qed.

Lemma line_location_answers_hold_witness :
  valid_ratio (1 # 1)
  /\ exists g rep out,
       generate_data (plain_world demo_project) (demo_generator (1 # 1))
       = Ret (g, rep, out)
       /\ Forall
            (fun e =>
               exists line f,
                 f ∈ scanned (plain_world demo_project) (demo_generator (1 # 1))
                 /\ line ∈ lines_of (plain_world demo_project) f
                 /\ e = line_location_entry (lit "demo")
                          (line, relpath (plain_world demo_project) f))
            (validation_questions g).
Proof.
  assert (valid_ratio (1 # 1)) as Hq by (split; unfold Qle; simpl; lia).
  split; [exact Hq|].
  destruct (line_location_answers_hold (plain_world demo_project) (lit "demo") true
              (1 # 1) (Some [dist_pattern]) Hq)
    as (g & rep & out & sampled & Hrun & _ & Hval & _ & Hall).
  exists g, rep, out. split; [exact Hrun|].
  apply Forall_forall. intros e He. apply Hval in He.
  rewrite Forall_forall in Hall.
  destruct (Hall e He) as (line & before & f & after & Hsplit & Hline & _ & ->).
  exists line, f. split; [|split; [exact Hline|reflexivity]].
  unfold demo_generator. rewrite Hsplit. apply elem_of_app. right. apply list_elem_of_here.
Defined.

(** ** The source-code entries *)

Lemma line_location_not_source (name : str) (item : str * str) :
  ~ is_source_code_entry (line_location_entry name item).
Proof.
  intros (rest & content & H). apply messages_inj in H as [H _]. discriminate H.
Qed.

Lemma structure_not_source (self : ProjectDataGenerator) (l : list str) :
  ~ is_source_code_entry (generate_project_structure_question self l).
Proof.
  intros (rest & content & H). apply messages_inj in H as [H _]. discriminate H.
Qed.

(** The training set of a run starts with one source-code entry for
    each file that was not skipped, in traversal order, whose assistant
    turn is the content read from that file; no other entry of the
    training set is a source-code entry. *)
Theorem one_source_entry_per_file (w : World) (name : str) (use_gitignore : bool)
    (ratio : Q) (s : option PathSpec) :
  valid_ratio ratio ->
  let self := new_generator name use_gitignore ratio s in
  exists g rep out others,
    generate_data w self = Ret (g, rep, out)
    /\ jsonl_data g
       = map
           (fun p =>
              messages
                (lit "What is the source code of " ++ relpath w p ++ lit " for the "
                 ++ name ++ lit " project?")
                (get_file_content w p))
           (scanned w self)
         ++ others
    /\ Forall (fun e => ~ is_source_code_entry e) others
    /\ forall p, is_source_code_entry (source_code_entry w name p).
Proof.
  intros Hq self.
  destruct (generate_data_ok w self Hq)
    as (selected & g & rep & out & Hrun & _ & _ & _ & _ & Hdata & _).
  rewrite scan_jsonl_data in Hdata. cbn [jsonl_data self new_generator app] in Hdata.
  exists g, rep, out. eexists. split; [done|]. split; [exact Hdata|]. split.
  - apply Forall_app. split.
    + apply Forall_take, Forall_forall. intros e He.
      change (map ?f ?l) with (f <$> l) in He.
      apply list_elem_of_fmap in He as (item & -> & _).
      apply line_location_not_source.
    + apply Forall_singleton, structure_not_source.
  - intros p. by eexists _, _.
Qed.

Lemma one_source_entry_per_file_witness :
  valid_ratio (2 # 5)
  /\ exists g rep out others,
       generate_data (plain_world demo_project) (demo_generator (2 # 5))
       = Ret (g, rep, out)
       /\ jsonl_data g
          = map (source_code_entry (plain_world demo_project) (lit "demo"))
              (scanned (plain_world demo_project) (demo_generator (2 # 5)))
            ++ others
       /\ Forall (fun e => ~ is_source_code_entry e) others.
Proof.
  assert (valid_ratio (2 # 5)) as Hq by (split; unfold Qle; simpl; lia).
  split; [exact Hq|].
  destruct (one_source_entry_per_file (plain_world demo_project) (lit "demo") true
              (2 # 5) (Some [dist_pattern]) Hq)
    as (g & rep & out & others & Hrun & Hdata & Hothers & _).
  exists g, rep, out, others. split; [exact Hrun|]. split; [exact Hdata|exact Hothers].
Defined.

(** ** The report and the files written *)

Lemma generate_data_can_write (w : World) (self : ProjectDataGenerator)
    (f : str -> bool) :
  generate_data (with_can_write w f) self
  = match generate_data w self with
    | Ret (g, rep, _) => Ret (g, rep, write_jsonl_files (with_can_write w f) g (now w))
    | Raise e => Raise e
    end.
Proof.
  unfold generate_data.
  change (scan (with_can_write w f) self) with (scan w self).
  change (generate_validation_questions (with_can_write w f) (scan w self))
    with (generate_validation_questions w (scan w self)).
  by destruct (generate_validation_questions w (scan w self)).
Qed.

Lemma str_eqb_refl (a : str) : str_eqb a a = true.
Proof. unfold str_eqb. by apply bool_decide_eq_true. Qed.

Lemma str_eqb_neq (a b : str) : a <> b -> str_eqb a b = false.
Proof. intros H. unfold str_eqb. by apply bool_decide_eq_false. Qed.

Lemma read_back_written (w : World) (g : ProjectDataGenerator) (ts : str) :
  let out := write_jsonl_files w g ts in
  read_back out (training_file_name g ts)
  = (if can_write w (training_file_name g ts)
     then Some (jsonl_text (jsonl_data g)) else None)
  /\ read_back out (validation_file_name g ts)
     = (if can_write w (validation_file_name g ts)
        then Some (jsonl_text (validation_questions g)) else None)
  /\ (forall n, n <> training_file_name g ts -> n <> validation_file_name g ts ->
               read_back out n = None).
Proof.
  pose proof (file_names_differ (project_name g) ts) as Hvt.
  assert (str_eqb (training_file_name g ts) (validation_file_name g ts) = false) as Htv.
  { apply str_eqb_neq. intros H. unfold str_eqb in Hvt.
    apply bool_decide_eq_false in Hvt. by apply Hvt. }
  fold (validation_file_name g ts) (training_file_name g ts) in Hvt.
  cbv zeta. unfold write_jsonl_files, write_jsonl_file, jsonl_text.
  destruct (can_write w (training_file_name g ts));
    destruct (can_write w (validation_file_name g ts));
    cbn [app read_back]; rewrite ?str_eqb_refl, ?Hvt, ?Htv;
    (split; [done|split; [done|]]);
    intros n Hn1 Hn2;
    rewrite ?(str_eqb_neq _ n (not_eq_sym Hn1)), ?(str_eqb_neq _ n (not_eq_sym Hn2));
    done.
Qed.

(** The report names the two output files, built from the project
    name and the time stamp, and they are different files. Each holds
    the serialized entries of its set, one per line, when it could be
    opened for writing and does not exist otherwise; no other file is
    written. A file that cannot be opened changes neither the
    generator nor the report: the run still succeeds and reports both
    names. *)
Theorem report_names_files_written (w : World) (name : str) (use_gitignore : bool)
    (ratio : Q) (s : option PathSpec) :
  valid_ratio ratio ->
  let self := new_generator name use_gitignore ratio s in
  exists g rep out,
    generate_data w self = Ret (g, rep, out)
    /\ training_file rep = name ++ lit "_training_" ++ now w ++ lit ".jsonl"
    /\ validation_file rep = name ++ lit "_validation_" ++ now w ++ lit ".jsonl"
    /\ training_file rep <> validation_file rep
    /\ read_back out (training_file rep)
       = (if can_write w (training_file rep)
          then Some (jsonl_text (jsonl_data g)) else None)
    /\ read_back out (validation_file rep)
       = (if can_write w (validation_file rep)
          then Some (jsonl_text (validation_questions g)) else None)
    /\ (forall n, n <> training_file rep -> n <> validation_file rep ->
                  read_back out n = None)
    /\ (forall f, exists out',
          generate_data (with_can_write w f) self = Ret (g, rep, out')).
Proof.
  intros Hq self.
  destruct (generate_data_ok w self Hq)
    as (selected & g & rep & out & Hrun & _ & _ & _ & _ & _ & _ & _ & _ & Hname
        & _ & _ & Ht & Hv & Hout).
  exists g, rep, out. split; [done|].
  assert (training_file rep = training_file_name g (now w)) as Ht'.
  { rewrite Ht. unfold training_file_name. by rewrite Hname. }
  assert (validation_file rep = validation_file_name g (now w)) as Hv'.
  { rewrite Hv. unfold validation_file_name. by rewrite Hname. }
  destruct (read_back_written w g (now w)) as (Hrt & Hrv & Hother).
  split; [by rewrite Ht|]. split; [by rewrite Hv|]. split.
  { rewrite Ht, Hv. unfold training_file_name, validation_file_name. intros H.
    pose proof (file_names_differ (project_name self) (now w)) as Hd.
    unfold str_eqb in Hd. apply bool_decide_eq_false in Hd. by apply Hd. }
  rewrite Ht', Hv', Hout. split; [done|]. split; [done|]. split; [done|].
  intros f. eexists. rewrite generate_data_can_write, Hrun. reflexivity.
Qed.

Lemma report_names_files_written_witness :
  valid_ratio (2 # 5)
  /\ (exists g rep out,
        generate_data (plain_world demo_project) (demo_generator (2 # 5))
        = Ret (g, rep, out)
        /\ training_file rep = lit "demo_training_20240101_120000.jsonl"
        /\ read_back out (training_file rep) = Some (jsonl_text (jsonl_data g))
        /\ read_back out (validation_file rep)
           = Some (jsonl_text (validation_questions g)))
  /\ (exists g rep out,
        generate_data (read_only_world demo_project) (demo_generator (2 # 5))
        = Ret (g, rep, out)
        /\ validation_file rep = lit "demo_validation_20240101_120000.jsonl"
        /\ read_back out (training_file rep) = None
        /\ read_back out (validation_file rep) = None).
Proof.
  assert (valid_ratio (2 # 5)) as Hq by (split; unfold Qle; simpl; lia).
  split; [exact Hq|]. split.
  - destruct (report_names_files_written (plain_world demo_project) (lit "demo") true
                (2 # 5) (Some [dist_pattern]) Hq)
      as (g & rep & out & Hrun & Ht & _ & _ & Hrt & Hrv & _).
    exists g, rep, out. split; [exact Hrun|]. split; [exact Ht|].
    split; [exact Hrt|exact Hrv].
  - destruct (report_names_files_written (read_only_world demo_project) (lit "demo") true
                (2 # 5) (Some [dist_pattern]) Hq)
      as (g & rep & out & Hrun & _ & Hv & _ & Hrt & Hrv & _).
    exists g, rep, out. split; [exact Hrun|]. split; [exact Hv|].
    split; [exact Hrt|exact Hrv].
Defined.

Lemma report_eq (r r' : Report) :
  report_project_name r = report_project_name r' ->
  report_token_count r = report_token_count r' ->
  training_file r = training_file r' ->
  validation_file r = validation_file r' ->
  r = r'.
Proof. destruct r, r'. cbn. by intros -> -> -> ->. Qed.

(** The token count of the report is the number of whitespace-separated
    tokens of the contents of all files that were not skipped (an
    unreadable file counts for none), and the generator holds the same
    number. The report does not depend on the sample: any other valid
    ratio and any other random draws give the same report. *)
Theorem report_counts_tokens_of_scanned_files (w : World) (name : str)
    (use_gitignore : bool) (ratio : Q) (s : option PathSpec) :
  valid_ratio ratio ->
  let self := new_generator name use_gitignore ratio s in
  exists g rep out,
    generate_data w self = Ret (g, rep, out)
    /\ report_project_name rep = name
    /\ report_token_count rep = sum_list (map (tokens_of w) (scanned w self))
    /\ token_count g = report_token_count rep
    /\ (forall p, read_text w p = None -> tokens_of w p = 0%nat)
    /\ (forall ratio' rnd,
          valid_ratio ratio' ->
          exists g' out',
            generate_data (with_draws w rnd) (new_generator name use_gitignore ratio' s)
            = Ret (g', rep, out')).
Proof.
  intros Hq self.
  destruct (generate_data_ok w self Hq)
    as (selected & g & rep & out & Hrun & _ & _ & _ & _ & _ & _ & _ & Htok & _
        & Hrtok & Hrname & Ht & Hv & _).
  rewrite scan_token_count in Htok. cbn [token_count self new_generator plus] in Htok.
  exists g, rep, out. split; [done|]. split; [done|].
  split; [by rewrite Hrtok, Htok|]. split; [done|]. split.
  { intros p Hp. unfold tokens_of, get_file_content. by rewrite Hp. }
  intros ratio' rnd Hq'.
  set (w' := with_draws w rnd).
  set (self' := new_generator name use_gitignore ratio' s).
  destruct (generate_data_ok w' self' Hq')
    as (selected' & g' & rep' & out' & Hrun' & _ & _ & _ & _ & _ & _ & _ & Htok' & _
        & Hrtok' & Hrname' & Ht' & Hv' & _).
  rewrite scan_token_count in Htok'. cbn [token_count self' new_generator plus] in Htok'.
  exists g', out'. rewrite Hrun'. do 3 f_equal.
  apply report_eq.
  - by rewrite Hrname, Hrname'.
  - by rewrite Hrtok, Hrtok', Htok, Htok'.
  - by rewrite Ht, Ht'.
  - by rewrite Hv, Hv'.
Qed.

Lemma report_counts_tokens_of_scanned_files_witness :
  valid_ratio (2 # 5)
  /\ exists g rep out,
       generate_data (plain_world demo_project) (demo_generator (2 # 5))
       = Ret (g, rep, out)
       /\ report_project_name rep = lit "demo"
       /\ report_token_count rep = 7%nat.
Proof.
  assert (valid_ratio (2 # 5)) as Hq by (split; unfold Qle; simpl; lia).
  split; [exact Hq|].
  destruct (report_counts_tokens_of_scanned_files (plain_world demo_project)
              (lit "demo") true (2 # 5) (Some [dist_pattern]) Hq)
    as (g & rep & out & Hrun & Hname & Htok & _).
  exists g, rep, out. split; [exact Hrun|]. split; [exact Hname|].
  rewrite Htok. reflexivity.
Defined.

(** ** The paths of the project structure *)

Lemma str_replace_id (old : N) (new s : str) :
  old ∉ s -> str_replace old new s = s.
Proof.
  induction s as [|c s IH]; [done|].
  intros H. apply not_elem_of_cons in H as [Hc Hs].
  unfold str_replace in *. cbn [flat_map].
  destruct (N.eqb_spec c old) as [->|_]; [done|]. cbn [app]. by rewrite IH.
Qed.

Lemma str_replace_sep (old : N) (new : str) : str_replace old new [old] = new.
Proof.
  unfold str_replace. cbn [flat_map]. rewrite N.eqb_refl. apply app_nil_r.
Qed.

(** When no component of a path contains the separator of the platform
    - no file or directory name can - the normalized path of the
    project structure is the components joined by forward slashes, on
    every platform. *)
Theorem structure_paths_use_forward_slashes (w : World) (p : path) :
  Forall (fun c => os_sep (os w) ∉ c) p ->
  normalized w p = str_join (lit "/") p.
Proof.
  unfold normalized, relpath.
  induction 1 as [|c p Hc _ IH]; [done|].
  cbn [str_join]. destruct p as [|c' p]; [by apply str_replace_id|].
  rewrite !str_replace_app, str_replace_sep, IH. by rewrite str_replace_id.
Qed.

Lemma structure_paths_use_forward_slashes_witness :
  Forall (fun c => os_sep (os (windows_world demo_project)) ∉ c)
    [lit "src"; lit "app.tsx"]
  /\ relpath (windows_world demo_project) [lit "src"; lit "app.tsx"]
     = lit "src" ++ [backslash] ++ lit "app.tsx"
  /\ normalized (windows_world demo_project) [lit "src"; lit "app.tsx"]
     = lit "src/app.tsx".
Proof.
  assert (Forall (fun c => os_sep (os (windows_world demo_project)) ∉ c)
            [lit "src"; lit "app.tsx"]) as H.
  { repeat (apply Forall_cons; split; [|]); [| |apply Forall_nil_2];
      intros Hin; vm_compute in Hin;
      repeat (apply elem_of_cons in Hin as [Hin|Hin]; [discriminate Hin|]);
      by apply elem_of_nil in Hin. }
  split; [exact H|]. split; [reflexivity|].
  rewrite (structure_paths_use_forward_slashes (windows_world demo_project)
             [lit "src"; lit "app.tsx"] H).
  reflexivity.
Defined.

(** ** The assistant turns *)























(** ** The characters written *)

Lemma jsonl_text_ascii (data : list pyobj) :
  Forall is_entry data ->
  Forall (fun c => c = LF \/ (32 <= c /\ c <= 126)) (jsonl_text data).
Proof.
  induction 1 as [|e data (u & a & ->) _ IH]; [apply Forall_nil_2|].
  unfold jsonl_text. cbn [flat_map]. rewrite <- app_assoc. apply Forall_app. split.
  - eapply Forall_impl; [apply dumps_messages_printable|]. intros c Hc. by right.
  - apply Forall_cons. split; [by left|exact IH].
Qed.

Lemma jsonl_text_last (data : list pyobj) :
  data <> [] -> last (jsonl_text data) = Some LF.
Proof.
  induction data as [|e data IH]; [done|]. intros _.
  unfold jsonl_text in *.
  change (last ((json_dumps e ++ [LF])
                ++ flat_map (fun entry => json_dumps entry ++ [LF]) data) = Some LF).
  destruct data as [|e' data].
  - cbn [flat_map]. rewrite app_nil_r. apply last_snoc.
  - rewrite last_app, IH; done.
Qed.

Lemma written_files_elem (w : World) (g : ProjectDataGenerator) (ts : str)
    (file_name text : str) :
  (file_name, text) ∈ write_jsonl_files w g ts ->
  text = jsonl_text (jsonl_data g) \/ text = jsonl_text (validation_questions g).
Proof.
  unfold write_jsonl_files, write_jsonl_file, jsonl_text.
  destruct (can_write w (training_file_name g ts));
    destruct (can_write w (validation_file_name g ts)); cbn [app]; intros H;
    repeat (apply elem_of_cons in H as [H|H]; [injection H as -> ->; by eauto|]);
    by apply elem_of_nil in H.
Qed.

(** Every file a run writes is plain ASCII whatever the project files
    hold: each character is a line feed or a printable character from
    the space to the tilde, so that control characters, non-ASCII text
    and line separators of the sources appear only in escaped form, and
    a file that is not empty ends with a line feed. *)
Theorem written_files_are_ascii (w : World) (name : str) (use_gitignore : bool)
    (ratio : Q) (s : option PathSpec) :
  valid_ratio ratio ->
  exists g rep out,
    generate_data w (new_generator name use_gitignore ratio s) = Ret (g, rep, out)
    /\ forall file_name text,
         (file_name, text) ∈ out ->
         Forall (fun c => c = LF \/ (32 <= c /\ c <= 126)) text
         /\ (text = [] \/ last text = Some LF).
Proof.
  intros Hq. set (self := new_generator name use_gitignore ratio s).
  destruct (generate_data_ok w self Hq) as (selected & g & rep & out & Hrun & _).
  destruct (generate_data_entries w self g rep out (Forall_nil_2 _) Hrun)
    as (Hdata & Hval & _ & _ & Hout).
  exists g, rep, out. split; [done|]. intros file_name text Hin.
  rewrite Hout in Hin. apply written_files_elem in Hin as [-> | ->].
  - split; [by apply jsonl_text_ascii|].
    destruct (jsonl_data g) eqn:E; [by left|right]. by apply jsonl_text_last.
  - split; [by apply jsonl_text_ascii|].
    destruct (validation_questions g) eqn:E; [by left|right]. by apply jsonl_text_last.
Qed.

Lemma written_files_are_ascii_witness :
  valid_ratio (1 # 1)
  /\ exists g rep out text,
       generate_data (plain_world demo_project) (demo_generator (1 # 1))
       = Ret (g, rep, out)
       /\ read_back out (lit "demo_training_20240101_120000.jsonl") = Some text
       /\ Forall (fun c => c = LF \/ (32 <= c /\ c <= 126)) text
       /\ last text = Some LF.
Proof.
  assert (valid_ratio (1 # 1)) as Hq by (split; unfold Qle; simpl; lia).
  split; [exact Hq|].
  destruct (written_files_are_ascii (plain_world demo_project) (lit "demo") true
              (1 # 1) (Some [dist_pattern]) Hq) as (g & rep & out & Hrun & Hall).
  assert (exists text,
            head out = Some (lit "demo_training_20240101_120000.jsonl", text)
            /\ read_back out (lit "demo_training_20240101_120000.jsonl") = Some text
            /\ text <> []) as (text & Hhead & Hread & Hne).
  { unfold demo_generator in Hrun. vm_compute in Hrun. injection Hrun as _ _ <-.
    eexists. split; [reflexivity|]. split; [vm_compute; reflexivity|]. discriminate. }
  exists g, rep, out, text. split; [exact Hrun|]. split; [exact Hread|].
  destruct out as [|[n t] out]; [discriminate Hhead|].
  injection Hhead as -> ->.
  destruct (Hall _ text (list_elem_of_here _ _)) as [Hascii [Hnil|Hlast]].
  - by destruct Hne.
  - split; [exact Hascii|exact Hlast].
Defined.
